(** * Superstore sales dashboard: the filter-and-aggregate pipeline of [app.py]

    The script is a straight-line pandas program.  This development embeds
    the part of it that derives the working table and its summaries:

      - preprocessing of the uploaded table (lines 138-141),
      - the date-range slice (line 179),
      - the cascading region/state/city filter (lines 195-243),
      - the KPI scalars (lines 251-255 and 290),
      - the grouped tables, the top-10 ranking, the monthly series and the
        sub-category by month pivot (lines 305, 335-340, 408-413, 578-585).

    A data frame is an ordered list of rows, each carrying its index label;
    boolean indexing is by label, as in pandas, and fails (None) when the
    indexer lacks a label of the frame.  Sales and Profit are float64 columns
    in the script; in the tables below they are exact rationals ([Qc]) and
    NaN is an absent value ([None]), so nothing is stated there that would
    equate two sums taken along different paths.  Where a statement turns on
    rounding (the category totals against the total-sales KPI) the two
    columns involved are taken as the script holds them, Category with its
    null cells and Sales as binary64 floats, and are summed the way numpy
    and pandas sum them.  Quantity is an int64 column, whose sums wrap.  In
    the rows of a frame the order date and the customer identifier may be
    null; the other cells are taken to be non-null. *)

From Corelib Require Import PrimFloat.
From Stdlib Require Import QArith Qcanon.
From Stdlib Require OrderedTypeEx.
From stdpp Require Import gmap strings list fin_maps numbers pretty sorting.

Local Open Scope string_scope.

(** ** Timestamps *)

Inductive Month :=
  | Jan | Feb | Mar | Apr | May | Jun | Jul | Aug | Sep | Oct | Nov | Dec.

#[global] Instance Month_eq_dec : EqDecision Month.
Proof. solve_decision. Defined.

Definition month_number (m : Month) : Z :=
  match m with
  | Jan => 1 | Feb => 2 | Mar => 3 | Apr => 4 | May => 5 | Jun => 6
  | Jul => 7 | Aug => 8 | Sep => 9 | Oct => 10 | Nov => 11 | Dec => 12
  end.

(** An order timestamp, at the resolution of a day (the date pickers of
    lines 173 and 176 produce midnights). *)
Record Timestamp := mkTimestamp { year : N; month : Month; day : N }.

#[global] Instance Timestamp_eq_dec : EqDecision Timestamp.
Proof. solve_decision. Defined.

(** Timestamps compare chronologically: by year, then month, then day. *)
Definition ts_compare (a b : Timestamp) : comparison :=
  match (year a ?= year b)%N with
  | Eq => match (month_number (month a) ?= month_number (month b))%Z with
          | Eq => (day a ?= day b)%N
          | c => c
          end
  | c => c
  end.

Definition ts_leb (a b : Timestamp) : bool :=
  match ts_compare a b with Gt => false | _ => true end.
Definition ts_ltb (a b : Timestamp) : bool :=
  match ts_compare a b with Lt => true | _ => false end.

(** ** Rows and frames *)

(** One order line.  [D] is the type of the Order Date cell: text as read from
    the file, [option Timestamp] (None is NaT) once line 138 has run. *)
Record Row (D : Type) := mkRow {
  Order_Date : D;
  Region : string;
  State : string;
  City : string;
  Category : string;
  Sub_Category : string;
  Segment : string;
  Sales : Qc;
  Profit : Qc;
  Quantity : Z;
  Order_ID : string;
  Customer_ID : option string;
  Product_Name : string;
}.

Arguments mkRow {D}.
Arguments Order_Date {D}.
Arguments Region {D}.
Arguments State {D}.
Arguments City {D}.
Arguments Category {D}.
Arguments Sub_Category {D}.
Arguments Segment {D}.
Arguments Sales {D}.
Arguments Profit {D}.
Arguments Quantity {D}.
Arguments Order_ID {D}.
Arguments Customer_ID {D}.
Arguments Product_Name {D}.

Abbreviation label := nat.

(** A frame: rows in order, each with its index label. *)
Abbreviation Frame D := (list (label * Row D)).

Abbreviation RawFrame := (Frame string).
Abbreviation DataFrame := (Frame (option Timestamp)).

(** The values of one column, [df[col]] without its index. *)
Definition column {D A} (f : Row D → A) (df : Frame D) : list A :=
  (λ ir, f ir.2) <$> df.

(** A boolean Series used as an indexer is only ever read by label
    ([check_bool_indexer] reindexes it to the frame it selects from), so it is
    a finite map from labels to booleans. *)
Abbreviation Mask := (gmap label bool).

(** [df[col]] followed by an elementwise test, e.g. [df["Region"].isin(region)]. *)
Definition mask_of {D} (p : Row D → bool) (df : Frame D) : Mask :=
  list_to_map (prod_map id p <$> df).

(** [a & b] on two boolean Series: the operands are aligned on the union of
    their indexes, a value missing on one side is NaN, and NaN counts as
    False. *)
Definition fill_bool (o : option bool) : bool := default false o.

Definition mask_and (a b : Mask) : Mask :=
  merge (λ x y, match x, y with
                | None, None => None
                | _, _ => Some (fill_bool x && fill_bool y)
                end) a b.

(** [df[key]] for a boolean Series [key]: the key is reindexed to the index of
    [df]; a label of [df] missing from the key raises IndexingError. *)
Definition getitem_bool {D} (df : Frame D) (key : Mask) : option (Frame D) :=
  if forallb (λ ir, bool_decide (is_Some (key !! ir.1))) df
  then Some (filter (λ ir, key !! ir.1 = Some true) df)
  else None.

(** [x in values] for [Series.isin]. *)
Definition isin (values : list string) (x : string) : bool :=
  bool_decide (x ∈ values).

(** Truth value of a Python list: [not sel] is [negb (truthy sel)]. *)
Definition truthy {A} (sel : list A) : bool :=
  match sel with [] => false | _ :: _ => true end.

(** ** Loading and preprocessing (lines 123, 138-141) *)

(** [pd.read_csv] numbers the rows 0, 1, 2, ... *)
Definition read_csv {D} (rows : list (Row D)) : Frame D :=
  imap (λ i r, (i, r)) rows.

Definition set_Order_Date {D E} (d : E) (r : Row D) : Row E :=
  mkRow d (Region r) (State r) (City r) (Category r) (Sub_Category r)
        (Segment r) (Sales r) (Profit r) (Quantity r) (Order_ID r)
        (Customer_ID r) (Product_Name r).

Section Preprocessing.
(** The date parser of pandas is not part of the script.  It sees the whole
    column (it may settle on one format for it) and yields, for each cell,
    a timestamp or NaT. *)
Variable to_datetime : list string → string → option Timestamp.

(** Line 138: [df["Order Date"] = pd.to_datetime(df["Order Date"], errors='coerce')]. *)
Definition coerce_dates (df : RawFrame) : DataFrame :=
  let parse := to_datetime (column Order_Date df) in
  (λ ir, (ir.1, set_Order_Date (parse (Order_Date ir.2)) ir.2)) <$> df.

(** Line 141: [df = df.dropna(subset=["Order Date"])]. *)
Definition dropna_Order_Date (df : DataFrame) : DataFrame :=
  filter (λ ir, is_Some (Order_Date ir.2)) df.

Definition preprocess (df : RawFrame) : DataFrame :=
  dropna_Order_Date (coerce_dates df).
End Preprocessing.

(** ** Date-range slice (line 179) *)

(** [df["Order Date"] >= date1]; a comparison with NaT is False. *)
Definition date_ge (date1 : Timestamp) (r : Row (option Timestamp)) : bool :=
  match Order_Date r with Some d => ts_leb date1 d | None => false end.

Definition date_le (date2 : Timestamp) (r : Row (option Timestamp)) : bool :=
  match Order_Date r with Some d => ts_leb d date2 | None => false end.

Definition date_slice (df : DataFrame) (date1 date2 : Timestamp) : option DataFrame :=
  getitem_bool df (mask_and (mask_of (date_ge date1) df) (mask_of (date_le date2) df)).

(** What the slice keeps: [date1 <= date <= date2], both ends included. *)
Definition in_date_range (date1 date2 : Timestamp)
    (r : Row (option Timestamp)) : bool :=
  date_ge date1 r && date_le date2 r.

(** ** The cascading location filter (lines 195-243) *)

Definition region_in (region : list string) (r : Row (option Timestamp)) : bool :=
  isin region (Region r).
Definition state_in (state : list string) (r : Row (option Timestamp)) : bool :=
  isin state (State r).
Definition city_in (city : list string) (r : Row (option Timestamp)) : bool :=
  isin city (City r).

(** Lines 195-198. *)
Definition narrow_region (df : DataFrame) (region : list string) : option DataFrame :=
  if negb (truthy region) then Some df
  else getitem_bool df (mask_of (region_in region) df).

(** Lines 207-210. *)
Definition narrow_state (df2 : DataFrame) (state : list string) : option DataFrame :=
  if negb (truthy state) then Some df2
  else getitem_bool df2 (mask_of (state_in state) df2).

(** Lines 219-222. *)
Definition narrow_city (df3 : DataFrame) (city : list string) : option DataFrame :=
  if negb (truthy city) then Some df3
  else getitem_bool df3 (mask_of (city_in city) df3).

(** Lines 228-243, branch for branch.  The masks built from [df] are indexed
    by all of [df], those built from [df3] by the narrower [df3]. *)
Definition filtered_df (df : DataFrame) (region state city : list string)
  : option DataFrame :=
  df2 ← narrow_region df region;
  df3 ← narrow_state df2 state;
  _ ← narrow_city df3 city;
  if negb (truthy region) && negb (truthy state) && negb (truthy city) then
    Some df
  else if negb (truthy state) && negb (truthy city) then
    getitem_bool df (mask_of (region_in region) df)
  else if negb (truthy region) && negb (truthy city) then
    getitem_bool df (mask_of (state_in state) df)
  else if truthy state && truthy city then
    getitem_bool df3 (mask_and (mask_of (state_in state) df)
                               (mask_of (city_in city) df3))
  else if truthy region && truthy city then
    getitem_bool df3 (mask_and (mask_of (region_in region) df)
                               (mask_of (city_in city) df3))
  else if truthy region && truthy state then
    getitem_bool df3 (mask_and (mask_of (region_in region) df)
                               (mask_of (state_in state) df3))
  else if truthy city then
    getitem_bool df3 (mask_of (city_in city) df3)
  else
    getitem_bool df3 (mask_and (mask_and (mask_of (region_in region) df3)
                                         (mask_of (state_in state) df3))
                               (mask_of (city_in city) df3)).

(** The simplification the specification allows: AND together the
    constraints whose selection is non-empty, against the date-sliced base. *)
Definition active (sel : list string) (x : string) : bool :=
  match sel with [] => true | _ :: _ => isin sel x end.

(** A frame narrowed by one selection, empty meaning no constraint. *)
Definition narrowed (get : Row (option Timestamp) → string) (sel : list string)
    (df : DataFrame) : DataFrame :=
  filter (λ ir, active sel (get ir.2) = true) df.

Definition simplified_predicate (region state city : list string)
    (r : Row (option Timestamp)) : bool :=
  active region (Region r) && active state (State r) && active city (City r).

Definition simplified_filter (df : DataFrame) (region state city : list string)
  : DataFrame :=
  filter (λ ir, simplified_predicate region state city ir.2 = true) df.

(** ** Grouping and sorting *)

Fixpoint sum_Qc (l : list Qc) : Qc :=
  match l with [] => 0%Qc | x :: l' => (x + sum_Qc l')%Qc end.

Fixpoint sum_Z (l : list Z) : Z :=
  match l with [] => 0%Z | x :: l' => (x + sum_Z l')%Z end.

(** Insertion sort, stable: an element goes in front of the first one it is
    not above, so equal elements keep their order. *)
Section Sort.
Context {A : Type} (leb : A → A → bool).

Fixpoint insert_sorted (x : A) (l : list A) : list A :=
  match l with
  | [] => [x]
  | y :: l' => if leb x y then x :: y :: l' else y :: insert_sorted x l'
  end.

Definition stable_sort (l : list A) : list A := foldr insert_sorted [] l.
End Sort.

(** The keys of a group-by: the distinct keys, ascending (sort=True). *)
Definition group_keys (ks : list string) : list string :=
  stable_sort String.leb (remove_dups ks).

(** [df.groupby(key)] followed by an aggregation of each group.  Rows whose
    key is missing (None) belong to no group. *)
Definition groupby {D B} (key : Row D → option string) (agg : Frame D → B)
    (df : Frame D) : list (string * B) :=
  (λ k, (k, agg (filter (λ ir, key ir.2 = Some k) df)))
    <$> group_keys (omap (λ ir, key ir.2) df).

(** Is the (possibly missing) key one of [ks]? *)
Definition key_in (ks : list string) (o : option string) : bool :=
  match o with Some k => bool_decide (k ∈ ks) | None => false end.

(** The sum of [val] over the group of key [k]. *)
Definition group_sum {D} (key : Row D → option string) (val : Row D → Qc)
    (df : Frame D) (k : string) : Qc :=
  sum_Qc (column val (filter (λ ir, key ir.2 = Some k) df)).

Definition groupby_sum {D} (key : Row D → option string) (val : Row D → Qc)
    (df : Frame D) : list (string * Qc) :=
  groupby key (λ g, sum_Qc (column val g)) df.

(** [Series.mean]: NaN on an empty Series. *)
Definition Qc_of_nat (n : nat) : Qc := Qc_of_Z (Z.of_nat n).

Definition mean (l : list Qc) : option Qc :=
  match l with
  | [] => None
  | _ :: _ => Some (sum_Qc l / Qc_of_nat (length l))%Qc
  end.

(** Float division as numpy does it: a zero denominator yields no finite
    number (NaN for 0/0, an infinity otherwise) and raises nothing. *)
Definition true_divide (a b : Qc) : option Qc :=
  if decide (b = 0%Qc) then None else Some (a / b)%Qc.

(** [sort_values(by="Sales", ascending=False)]: pandas reverses the rows,
    sorts ascending and reverses the outcome, so that a stable sort stays
    stable when descending.  The ascending sort is taken stable here.  The
    script leaves the kind of sort at its default, for which pandas does not
    promise the order among equal values; what is proved of the ranking for
    every table holds for any sort. *)
Definition Sales_leb (a b : string * Qc) : bool := bool_decide (a.2 ≤ b.2)%Qc.

(** Descending order of the value column. *)
Definition Sales_ge (a b : string * Qc) : Prop := (b.2 ≤ a.2)%Qc.

Definition sort_values_desc (t : list (string * Qc)) : list (string * Qc) :=
  reverse (stable_sort Sales_leb (reverse t)).

(** ** KPI scalars (lines 251-255 and 290) *)

Definition total_sales {D} (df : Frame D) : Qc := sum_Qc (column Sales df).
Definition total_profit {D} (df : Frame D) : Qc := sum_Qc (column Profit df).

(** Line 253: an int64 sum; numpy wraps around on overflow. *)
Definition wrap_int64 (z : Z) : Z := ((z + 2 ^ 63) mod 2 ^ 64 - 2 ^ 63)%Z.

Definition total_quantity {D} (df : Frame D) : Z :=
  wrap_int64 (sum_Z (column Quantity df)).

(** Line 254. *)
Definition profit_margin {D} (df : Frame D) : Qc :=
  if bool_decide (0 < total_sales df)%Qc
  then (total_profit df / total_sales df * Qc_of_Z 100)%Qc
  else 0%Qc.

(** Line 255.  [columns] is the header of the uploaded table. *)
Definition avg_order_value {D} (columns : list string) (df : Frame D) : option Qc :=
  if bool_decide ("Order ID" ∈ columns)
  then mean (groupby_sum (λ r, Some (Order_ID r)) Sales df).*2
  else true_divide (total_sales df) (Qc_of_nat (length df)).

(** Line 290: [nunique] leaves null cells out of the count. *)
Definition unique_customers {D} (columns : list string) (df : Frame D) : nat :=
  if bool_decide ("Customer ID" ∈ columns)
  then length (remove_dups (omap (λ ir, Customer_ID ir.2) df))
  else length df.

(** ** Aggregate tables *)

(** Line 305. *)
Definition category_df {D} (df : Frame D) : list (string * Qc) :=
  groupby_sum (λ r, Some (Category r)) Sales df.

(** Lines 335-340. *)
Definition top_cities {D} (df : Frame D) : list (string * Qc) :=
  take 10 (sort_values_desc (groupby_sum (λ r, Some (City r)) Sales df)).

(** Line 408: [dt.to_period("M")]. *)
Definition to_period_M (t : Timestamp) : N * Month := (year t, month t).

Definition month_year (r : Row (option Timestamp)) : option (N * Month) :=
  to_period_M <$> Order_Date r.

Definition month_abbr (m : Month) : string :=
  match m with
  | Jan => "Jan" | Feb => "Feb" | Mar => "Mar" | Apr => "Apr"
  | May => "May" | Jun => "Jun" | Jul => "Jul" | Aug => "Aug"
  | Sep => "Sep" | Oct => "Oct" | Nov => "Nov" | Dec => "Dec"
  end.

(** [strftime("%Y : %b")] on a monthly period; the years of a pandas
    timestamp have four digits. *)
Definition strftime_Y_b (p : N * Month) : string :=
  pretty p.1 +:+ " : " +:+ month_abbr p.2.

(** Lines 411-413: the groups are keyed by the formatted label. *)
Definition linechart (df : DataFrame) : list (string * Qc) :=
  groupby_sum (λ r, strftime_Y_b <$> month_year r) Sales df.

(** Line 482 and line 504. *)
Definition segment_df {D} (df : Frame D) : list (string * Qc) :=
  groupby_sum (λ r, Some (Segment r)) Sales df.

Definition category_pie_df {D} (df : Frame D) : list (string * Qc) :=
  groupby_sum (λ r, Some (Category r)) Sales df.

(** Lines 531-535. *)
Definition region_performance {D} (df : Frame D) : list (string * (Qc * Qc * Z)) :=
  groupby (λ r, Some (Region r))
          (λ g, (total_sales g, total_profit g, total_quantity g)) df.

(** Line 578: [dt.month_name()]. *)
Definition month_name (m : Month) : string :=
  match m with
  | Jan => "January" | Feb => "February" | Mar => "March" | Apr => "April"
  | May => "May" | Jun => "June" | Jul => "July" | Aug => "August"
  | Sep => "September" | Oct => "October" | Nov => "November"
  | Dec => "December"
  end.

Definition month_col (r : Row (option Timestamp)) : option string :=
  (λ t, month_name (month t)) <$> Order_Date r.

(** Lines 580-585: [pd.pivot_table] with its default aggregation, which is
    the mean.  A row of the outcome is a sub-category with one cell per month
    column; a cell with no data is NaN. *)
Definition pivot_rows (df : DataFrame) : DataFrame :=
  filter (λ ir, is_Some (month_col ir.2)) df.

Definition pivot_cell_of (df : DataFrame) (s m : string) : option Qc :=
  mean (column Sales
          (filter (λ ir, Sub_Category ir.2 = s ∧ month_col ir.2 = Some m) df)).

Definition sub_category_year (df : DataFrame)
  : list (string * list (string * option Qc)) :=
  let index := group_keys (column Sub_Category (pivot_rows df)) in
  let columns := group_keys (omap (λ ir, month_col ir.2) df) in
  (λ s, (s, (λ m, (m, pivot_cell_of df s m)) <$> columns)) <$> index.

(** Reading a table by key. *)
Fixpoint assoc {B} (k : string) (t : list (string * B)) : option B :=
  match t with
  | [] => None
  | (k', v) :: t' => if decide (k = k') then Some v else assoc k t'
  end.

(** The cell at sub-category [s] and month [m]; None when the row or the
    column is absent or the cell is NaN. *)
Definition pivot_cell (t : list (string * list (string * option Qc)))
    (s m : string) : option Qc :=
  cells ← assoc s t; mjoin (assoc m cells).

(** Lines 610-617: no table when the column is absent. *)
Definition top_products {D} (columns : list string) (df : Frame D)
  : option (list (string * Qc)) :=
  if bool_decide ("Product Name" ∈ columns)
  then Some (take 10 (sort_values_desc
                        (groupby_sum (λ r, Some (Product_Name r)) Profit df)))
  else None.

(** Lines 640-647. *)
Definition category_profit {D} (df : Frame D)
  : list (string * (Qc * Qc * option Qc)) :=
  (λ kv, (kv.1, (kv.2.1, kv.2.2, (λ q, q * Qc_of_Z 100)%Qc <$> true_divide kv.2.2 kv.2.1)))
    <$> groupby (λ r, Some (Category r)) (λ g, (total_sales g, total_profit g)) df.

(** ** Sales as float64: the sums of lines 251 and 305 *)

(** The Category and Sales columns of a table as the script holds them: a
    Category cell may be null, a Sales cell is a binary64 float. *)
Abbreviation CategorySales := (list (option string * float)).

Definition sum_left (acc : float) (l : list float) : float :=
  foldl PrimFloat.add acc l.

(** The eight running sums of numpy's unrolled loop: each full run of eight
    values is added, place by place, to [r]; fewer than eight are left over. *)
Fixpoint unrolled8 (r l : list float) {struct l} : list float * list float :=
  match l with
  | a0 :: a1 :: a2 :: a3 :: a4 :: a5 :: a6 :: a7 :: l' =>
      unrolled8 (zip_with PrimFloat.add r [a0; a1; a2; a3; a4; a5; a6; a7]) l'
  | _ => (r, l)
  end.

(** A block of 8 to 128 values: the running sums start as the first eight
    values, are added up as a tree, and the values left over follow one by
    one. *)
Definition block_sum (l : list float) : float :=
  match unrolled8 (take 8 l) (drop 8 l) with
  | ([r0; r1; r2; r3; r4; r5; r6; r7], rest) =>
      sum_left (((r0 + r1) + (r2 + r3)) + ((r4 + r5) + (r6 + r7)))%float rest
  | _ => sum_left PrimFloat.neg_zero l
  end.

(** numpy's pairwise summation of a float64 array.  Fewer than 8 values are
    added from left to right; a longer array than 128 is cut in two at a
    multiple of 8 and the halves are summed by the same rule.  [fuel] bounds
    the depth of the cuts; the length of the array is more than enough. *)
Fixpoint pairwise_sum (fuel : nat) (l : list float) : float :=
  let n := length l in
  if decide (n < 8)%nat then sum_left PrimFloat.neg_zero l
  else if decide (n ≤ 128)%nat then block_sum l
  else match fuel with
       | 0 => block_sum l
       | S fuel' =>
           let n2 := (n / 2 - (n / 2) mod 8)%nat in
           (pairwise_sum fuel' (take n2 l) + pairwise_sum fuel' (drop n2 l))%float
       end.

(** [Series.sum] on a float64 column: NaN cells count as 0, the rest is
    numpy's sum; the sum of no values is 0.  (numpy adds the outcome to the
    identity of the addition, which can change the sign of a zero and nothing
    else.) *)
Definition fillna_zero (v : float) : float :=
  if PrimFloat.is_nan v then PrimFloat.zero else v.

Definition Series_sum_f64 (l : list float) : float :=
  match l with
  | [] => PrimFloat.zero
  | _ :: _ => pairwise_sum (length l) (fillna_zero <$> l)
  end.

(** One step of the compensated sum that pandas runs over the rows of a
    group: the rounding error of each addition is carried along and taken off
    the next value. *)
Definition kahan_step (st : float * float) (val : float) : float * float :=
  let '(sumx, compensation) := st in
  let y := (val - compensation)%float in
  let t := (sumx + y)%float in
  let c := (t - sumx - y)%float in
  (t, if PrimFloat.is_nan c then PrimFloat.zero else c).

(** The sum of one group, over its values in row order; NaN cells are
    skipped. *)
Definition group_sum_f64 (vals : list float) : float :=
  (foldl kahan_step (PrimFloat.zero, PrimFloat.zero)
         (filter (λ v, PrimFloat.is_nan v = false) vals)).1.

(** The Sales cells of the rows of category [c], in row order. *)
Definition category_group (rows : CategorySales) (c : string) : list float :=
  (filter (λ r, r.1 = Some c) rows).*2.

(** Line 305 on floats: one row per distinct non-null category, ascending. *)
Definition category_df_f64 (rows : CategorySales) : list (string * float) :=
  (λ c, (c, group_sum_f64 (category_group rows c)))
    <$> group_keys (omap fst rows).

(** Line 251 on floats. *)
Definition total_sales_f64 (rows : CategorySales) : float :=
  Series_sum_f64 rows.*2.

(** ** The specification's wording of four summaries

    These follow the specification, not the script; they are what the
    counterexamples further down are measured against. *)

(** Position of the first occurrence of [c] in [l]. *)
Fixpoint first_pos (c : string) (l : list string) : nat :=
  match l with
  | [] => 0
  | c' :: l' => if decide (c = c') then 0 else S (first_pos c l')
  end.

(** "Rows with equal summed sales appear in the order the cities occur in
    the input." *)
Definition ties_in_input_order (cities : list string) (t : list (string * Qc))
  : Prop :=
  ∀ i j c1 c2 s,
    i < j → t !! i = Some (c1, s) → t !! j = Some (c2, s) →
    first_pos c1 cities < first_pos c2 cities.

(** "Length min(10, distinct cities), sorted descending by sales, with stable
    tie order." *)
Definition top_cities_claim (df : DataFrame) : Prop :=
  length (top_cities df) = min 10 (length (remove_dups (column City df)))
  ∧ Sorted Sales_ge (top_cities df)
  ∧ ties_in_input_order (column City df) (top_cities df).

(** "Cell = summed sales for that sub-category in that month; missing
    combinations are null." *)
Definition pivot_sum_claim (df : DataFrame) : Prop :=
  ∀ s m,
    pivot_cell (sub_category_year df) s m
    = match column Sales (filter (λ ir, Sub_Category ir.2 = s
                                        ∧ month_col ir.2 = Some m) df) with
      | [] => None
      | x :: l => Some (sum_Qc (x :: l))
      end.

(** "Profit margin % = 0 exactly when total sales = 0; otherwise it is
    total profit / total sales x 100." *)
Definition margin_claim (df : DataFrame) : Prop :=
  (profit_margin df = 0%Qc ↔ total_sales df = 0%Qc)
  ∧ ((0 < total_sales df)%Qc →
     profit_margin df = (total_profit df / total_sales df * Qc_of_Z 100)%Qc).

(** "The sum of the per-category Sales values in the category-totals table
    equals the total-sales KPI computed directly from the same table." *)
Definition additivity_claim (rows : CategorySales) : Prop :=
  Series_sum_f64 (category_df_f64 rows).*2 = total_sales_f64 rows.

(** ** Sample tables *)

Definition sample_row (d : option Timestamp) (region state city sub : string)
    (sales profit : Z) : Row (option Timestamp) :=
  mkRow d region state city "Furniture" sub "Consumer"
        (Qc_of_Z sales) (Qc_of_Z profit) 1 "CA-2023-1" (Some "CG-1") "Desk".

Definition feb10 : Timestamp := mkTimestamp 2023 Feb 10.
Definition apr05 : Timestamp := mkTimestamp 2023 Apr 5.
Definition dec20 : Timestamp := mkTimestamp 2023 Dec 20.
Definition jan15 : Timestamp := mkTimestamp 2024 Jan 15.

(** Four order lines; the labels have gaps, as after dropped rows. *)
Definition sample_df : DataFrame :=
  [ (0, sample_row (Some feb10) "East" "New York" "Boston" "Chairs" 10 1);
    (2, sample_row (Some apr05) "West" "California" "Austin" "Chairs" 20 2);
    (3, sample_row (Some dec20) "West" "California" "Fresno" "Tables" 30 3);
    (5, sample_row (Some jan15) "East" "New York" "Albany" "Tables" 40 4) ].

(** Two order lines, in February and in April of one year. *)
Definition two_months : DataFrame :=
  [ (0, sample_row (Some feb10) "East" "New York" "Boston" "Chairs" 10 1);
    (1, sample_row (Some apr05) "East" "New York" "Boston" "Chairs" 20 2) ].

(** Two order lines of one sub-category in one month. *)
Definition chairs_february : DataFrame :=
  [ (0, sample_row (Some feb10) "East" "New York" "Boston" "Chairs" 10 1);
    (1, sample_row (Some feb10) "East" "New York" "Boston" "Chairs" 30 2) ].

(** Two cities with equal sales, Boston first. *)
Definition boston_austin : DataFrame :=
  [ (0, sample_row (Some feb10) "East" "New York" "Boston" "Chairs" 10 1);
    (1, sample_row (Some feb10) "West" "California" "Austin" "Chairs" 10 2) ].

(** One order line with sales and no profit. *)
Definition no_profit : DataFrame :=
  [ (0, sample_row (Some feb10) "East" "New York" "Boston" "Chairs" 100 0) ].

(** An upload of three lines, the second with an unreadable date, and a
    parser that knows two dates. *)
Definition sample_upload : list (Row string) :=
  [ set_Order_Date "2023-02-10"
      (sample_row None "East" "New York" "Boston" "Chairs" 10 1);
    set_Order_Date "n/a"
      (sample_row None "West" "California" "Austin" "Chairs" 20 2);
    set_Order_Date "2023-04-05"
      (sample_row None "West" "California" "Fresno" "Tables" 30 3) ].

Definition sample_parser (column : list string) (cell : string)
  : option Timestamp :=
  if decide (cell = "2023-02-10") then Some feb10
  else if decide (cell = "2023-04-05") then Some apr05
  else None.

(** ** The default date range and the option lists (lines 144-145, 188-217) *)

Definition ts_min (a b : Timestamp) : Timestamp := if ts_leb a b then a else b.
Definition ts_max (a b : Timestamp) : Timestamp := if ts_leb a b then b else a.

(** [Series.min()] and [Series.max()] on a datetime column: NaT cells are
    skipped, and the outcome is NaT when no cell is left. *)
Fixpoint series_reduce (f : Timestamp → Timestamp → Timestamp)
    (l : list (option Timestamp)) : option Timestamp :=
  match l with
  | [] => None
  | None :: l' => series_reduce f l'
  | Some d :: l' =>
      match series_reduce f l' with
      | Some m => Some (f d m)
      | None => Some d
      end
  end.

(** Lines 144 and 145. *)
Definition startDate (df : DataFrame) : option Timestamp :=
  series_reduce ts_min (column Order_Date df).
Definition endDate (df : DataFrame) : option Timestamp :=
  series_reduce ts_max (column Order_Date df).

(** [Series.unique()]: the distinct values, in order of first appearance. *)
Fixpoint unique (l : list string) : list string :=
  match l with
  | [] => []
  | x :: l' => x :: filter (λ y, y ≠ x) (unique l')
  end.

(** Line 190. *)
Definition region_options (df : DataFrame) : list string :=
  unique (column Region df).

(** Lines 195-203: the states on offer come from the region-narrowed table. *)
Definition state_options (df : DataFrame) (region : list string)
  : option (list string) :=
  df2 ← narrow_region df region;
  Some (unique (column State df2)).

(** Lines 195-215: the cities on offer come from the table narrowed by
    region and then by state. *)
Definition city_options (df : DataFrame) (region state : list string)
  : option (list string) :=
  df2 ← narrow_region df region;
  df3 ← narrow_state df2 state;
  Some (unique (column City df3)).

(** The run from the uploaded rows to the filtered table (lines 123-243). *)
Definition run_filters (to_datetime : list string → string → option Timestamp)
    (rows : list (Row string)) (date1 date2 : Timestamp)
    (region state city : list string) : option DataFrame :=
  df ← date_slice (preprocess to_datetime (read_csv rows)) date1 date2;
  filtered_df df region state city.

(** The Quantity column of the regional table (lines 531-535). *)
Definition region_Quantity (t : list (string * (Qc * Qc * Z))) : list Z :=
  (λ kv, kv.2.2) <$> t.

(** Does year [y] print with four digits and before year [y + 1]? *)
Definition year_prints_before_next (y : N) : bool :=
  match String.compare (pretty y) (pretty (y + 1)%N) with
  | Lt => Nat.eqb (String.length (pretty y)) 4
          && Nat.eqb (String.length (pretty (y + 1)%N)) 4
  | _ => false
  end.

(** A table with an order that spans two lines and a line that names no
    customer. *)
Definition two_line_order : DataFrame :=
  [ (0, mkRow (Some feb10) "East" "New York" "Boston" "Furniture" "Chairs"
           "Consumer" (Qc_of_Z 10) (Qc_of_Z 1) 2 "CA-1" (Some "CG-1") "Chair");
    (1, mkRow (Some feb10) "East" "New York" "Boston" "Furniture" "Tables"
           "Consumer" (Qc_of_Z 30) (Qc_of_Z 3) 1 "CA-1" (Some "CG-1") "Table");
    (2, mkRow (Some apr05) "West" "California" "Fresno" "Technology" "Phones"
           "Corporate" (Qc_of_Z 20) (Qc_of_Z 0) 5 "CA-2" None "Phone") ].

(** Three lines of one category with sales of 0.1, 0.2 and 0.3. *)
Definition three_tenths : CategorySales :=
  [ (Some "Furniture", 1 / 10); (Some "Furniture", 2 / 10);
    (Some "Furniture", 3 / 10) ]%float.

(** One line whose Category cell is null. *)
Definition no_category : CategorySales := [ (None, 10%float) ].

(** The label of a row in the monthly series (line 411). *)
Definition month_label (r : Row (option Timestamp)) : option string :=
  strftime_Y_b <$> month_year r.

(** * Properties *)

(** ** Lists *)

Lemma filter_all {A} (P : A → Prop) `{!∀ x, Decision (P x)} (l : list A) :
  (∀ x, P x) → filter P l = l.
Proof.
  intros HP. induction l as [|x l IH]; [done|].
  by rewrite filter_cons_True, IH.
Qed.

Lemma filter_none {A} (P : A → Prop) `{!∀ x, Decision (P x)} (l : list A) :
  (∀ x, x ∈ l → ¬ P x) → filter P l = [].
Proof.
  induction l as [|x l IH]; intros HP; [done|].
  rewrite filter_cons_False by (apply HP; left).
  apply IH. intros; apply HP; by right.
Qed.

Lemma filter_ext_in {A} (P Q : A → Prop)
    `{!∀ x, Decision (P x), !∀ x, Decision (Q x)} (l : list A) :
  (∀ x, x ∈ l → P x ↔ Q x) → filter P l = filter Q l.
Proof.
  induction l as [|x l IH]; intros HPQ; [done|].
  rewrite !filter_cons, IH by (intros; apply HPQ; by right).
  pose proof (HPQ x ltac:(left)). repeat case_decide; tauto.
Qed.

Lemma Sorted_weaken {A} (R R' : relation A) l :
  (∀ a b, R a b → R' a b) → Sorted R l → Sorted R' l.
Proof.
  intros HR. induction 1 as [|x l Hs IH Hhd]; constructor; [done|].
  destruct Hhd; constructor; auto.
Qed.

Lemma Sorted_take {A} (R : relation A) n l : Sorted R l → Sorted R (take n l).
Proof.
  intros Hs. revert n. induction Hs as [|x l Hs IH Hhd]; intros [|n]; simpl;
    try constructor; [apply IH|].
  destruct Hhd, n; simpl; by constructor.
Qed.

(** ** Timestamps *)

Lemma ts_leb_trans a b c :
  ts_leb a b = true → ts_leb b c = true → ts_leb a c = true.
Proof.
  unfold ts_leb, ts_compare.
  destruct (N.compare_spec (year a) (year b)),
           (N.compare_spec (year b) (year c)),
           (N.compare_spec (year a) (year c)); try done; try lia;
  destruct (Z.compare_spec (month_number (month a)) (month_number (month b))),
           (Z.compare_spec (month_number (month b)) (month_number (month c))),
           (Z.compare_spec (month_number (month a)) (month_number (month c)));
    try done; try lia;
  destruct (N.compare_spec (day a) (day b)),
           (N.compare_spec (day b) (day c)),
           (N.compare_spec (day a) (day c)); try done; lia.
Qed.

Lemma ts_ltb_not_leb a b : ts_ltb a b = true → ts_leb b a = false.
Proof.
  unfold ts_ltb, ts_leb, ts_compare.
  rewrite (N.compare_antisym (year a) (year b)),
          (Z.compare_antisym (month_number (month a)) (month_number (month b))),
          (N.compare_antisym (day a) (day b)).
  destruct (year a ?= year b)%N; simpl; try done.
  destruct (month_number (month a) ?= month_number (month b))%Z; simpl; try done.
  by destruct (day a ?= day b)%N.
Qed.

Lemma in_date_range_iff date1 date2 r :
  in_date_range date1 date2 r = true ↔
  ∃ d, Order_Date r = Some d ∧ ts_leb date1 d = true ∧ ts_leb d date2 = true.
Proof.
  unfold in_date_range, date_ge, date_le. rewrite andb_true_iff.
  destruct (Order_Date r) as [d|].
  - split; [intros []; eauto|]. by intros (? & [= <-] & ? & ?).
  - split; [by intros []|]. by intros (? & ? & _).
Qed.

Lemma in_date_range_crossed date1 date2 r :
  ts_ltb date2 date1 = true → in_date_range date1 date2 r = false.
Proof.
  intros Hlt%ts_ltb_not_leb. apply not_true_is_false.
  intros (d & _ & H1 & H2)%in_date_range_iff.
  by rewrite (ts_leb_trans _ _ _ H1 H2) in Hlt.
Qed.

(** ** Boolean indexing *)

Section Indexing.
Context {D : Type}.
Implicit Types (df : Frame D) (p q : Row D → bool) (key : Mask).

Lemma lookup_mask_of p df i r :
  NoDup df.*1 → (i, r) ∈ df → mask_of p df !! i = Some (p r).
Proof.
  intros Hnd Hin. unfold mask_of. apply elem_of_list_to_map_1.
  - rewrite <- list_fmap_compose.
    by rewrite (list_fmap_ext (fst ∘ prod_map id p) fst df) by (by intros ? []).
  - apply (list_elem_of_fmap_2 (prod_map id p) df (i, r) Hin).
Qed.

(** A key that knows every label of the frame selects the rows it marks,
    and raises nothing. *)
Lemma getitem_bool_spec df key q :
  (∀ i r, (i, r) ∈ df → key !! i = Some (q r)) →
  getitem_bool df key = Some (filter (λ ir, q ir.2 = true) df).
Proof.
  intros Hkey. unfold getitem_bool.
  assert (forallb (λ ir, bool_decide (is_Some (key !! ir.1))) df = true) as ->.
  { apply forallb_forall. intros [i r] Hin%list_elem_of_In.
    apply bool_decide_eq_true. cbn [fst]. rewrite (Hkey i r Hin). eauto. }
  f_equal. apply filter_ext_in. intros [i r] Hin. cbn [fst snd].
  rewrite (Hkey i r Hin). split; congruence.
Qed.

Lemma getitem_bool_mask_of df p :
  NoDup df.*1 →
  getitem_bool df (mask_of p df) = Some (filter (λ ir, p ir.2 = true) df).
Proof. intros Hnd. apply getitem_bool_spec. intros. by apply lookup_mask_of. Qed.

(** Two masks over the same frame: line 179. *)
Lemma getitem_bool_and df p q :
  NoDup df.*1 →
  getitem_bool df (mask_and (mask_of p df) (mask_of q df))
  = Some (filter (λ ir, (p ir.2 && q ir.2) = true) df).
Proof.
  intros Hnd. apply (getitem_bool_spec df _ (λ r, p r && q r)).
  intros i r Hin. unfold mask_and. rewrite lookup_merge.
  by rewrite !(lookup_mask_of _ df i r).
Qed.

(** A mask over the base frame and one over a narrowed frame, used on the
    narrowed frame: lines 235, 237 and 239.  The labels the second mask
    lacks are labels the narrowed frame lacks too. *)
Lemma getitem_bool_and_narrow df df3 p q :
  NoDup df.*1 → df3 ⊆ df → NoDup df3.*1 →
  getitem_bool df3 (mask_and (mask_of p df) (mask_of q df3))
  = Some (filter (λ ir, (p ir.2 && q ir.2) = true) df3).
Proof.
  intros Hnd Hsub Hnd3. apply (getitem_bool_spec df3 _ (λ r, p r && q r)).
  intros i r Hin. unfold mask_and. rewrite lookup_merge.
  rewrite (lookup_mask_of p df i r), (lookup_mask_of q df3 i r); auto.
Qed.

Lemma filter_unique_index (P : label * Row D → Prop) `{!∀ x, Decision (P x)} df :
  NoDup df.*1 → NoDup (filter P df).*1.
Proof.
  intros Hnd. apply (sublist_NoDup _ _ Hnd).
  apply fmap_sublist, sublist_filter.
Qed.

Lemma read_csv_unique_index (rows : list (Row D)) : NoDup (read_csv rows).*1.
Proof.
  unfold read_csv. rewrite fmap_imap.
  rewrite (imap_ext _ (λ i _, i)) by done.
  rewrite imap_seq_0, list_fmap_id. apply NoDup_seq.
Qed.
End Indexing.

(** ** Preprocessing *)

Lemma dropna_coerced (parse : string → option Timestamp) (l : RawFrame) :
  filter (λ ir : label * Row (option Timestamp), is_Some (Order_Date ir.2))
         ((λ ir, (ir.1, set_Order_Date (parse (Order_Date ir.2)) ir.2)) <$> l)
  = omap (λ ir, d ← parse (Order_Date ir.2);
                Some (ir.1, set_Order_Date (Some d) ir.2)) l.
Proof.
  induction l as [|[i r] l IH]; [done|].
  rewrite fmap_cons, filter_cons, IH. cbn [fst snd omap list_omap].
  destruct (parse (Order_Date r)) as [d|]; cbn [mbind option_bind].
  - by rewrite decide_True by (cbn; eauto).
  - by rewrite decide_False by (cbn; by intros []).
Qed.

Lemma preprocess_unique_index to_datetime (df : RawFrame) :
  NoDup df.*1 → NoDup (preprocess to_datetime df).*1.
Proof.
  intros Hnd. unfold preprocess, dropna_Order_Date.
  apply filter_unique_index. unfold coerce_dates.
  by rewrite <- list_fmap_compose.
Qed.

(** C9.  Preprocessing keeps, in their order and under their labels, exactly
    the uploaded rows whose Order Date cell the parser turns into a
    timestamp, each with that timestamp; the others are dropped and nothing
    is raised.  Every row that remains has a non-null order date. *)
Theorem preprocess_drops_unparsed
    (to_datetime : list string → string → option Timestamp) (df : RawFrame) :
  preprocess to_datetime df
  = omap (λ ir, d ← to_datetime (column Order_Date df) (Order_Date ir.2);
                Some (ir.1, set_Order_Date (Some d) ir.2)) df
  ∧ Forall (λ ir, is_Some (Order_Date ir.2)) (preprocess to_datetime df)
  ∧ ∀ i r, (i, r) ∈ preprocess to_datetime df ↔
           ∃ r0 d, (i, r0) ∈ df
                   ∧ to_datetime (column Order_Date df) (Order_Date r0) = Some d
                   ∧ r = set_Order_Date (Some d) r0.
Proof.
  set (parse := to_datetime (column Order_Date df)).
  pose proof (dropna_coerced parse df) as Heq.
  change (preprocess to_datetime df
          = omap (λ ir, d ← parse (Order_Date ir.2);
                        Some (ir.1, set_Order_Date (Some d) ir.2)) df) in Heq.
  split_and!; [done| |].
  - unfold preprocess, dropna_Order_Date. apply Forall_forall.
    by intros ir [? _]%list_elem_of_filter.
  - intros i r. rewrite Heq, list_elem_of_omap. split.
    + intros ([i' r0] & Hin & Hsome). cbn in Hsome.
      destruct (parse (Order_Date r0)) as [d|] eqn:Hd; [|done].
      injection Hsome as -> <-. eauto.
    + intros (r0 & d & Hin & Hd & ->). exists (i, r0). split; [done|].
      cbn. by rewrite Hd.
Qed.

Example preprocess_sample_upload :
  preprocess sample_parser (read_csv sample_upload)
  = [ (0, sample_row (Some feb10) "East" "New York" "Boston" "Chairs" 10 1);
      (2, sample_row (Some apr05) "West" "California" "Fresno" "Tables" 30 3) ].
Proof. reflexivity. Qed.

(** ** The date-range slice *)

Lemma date_slice_filter (df : DataFrame) date1 date2 :
  NoDup df.*1 →
  date_slice df date1 date2
  = Some (filter (λ ir, in_date_range date1 date2 ir.2 = true) df).
Proof. intros Hnd. by apply getitem_bool_and. Qed.

(** The base table of a run: loaded, preprocessed, sliced.  Its labels are
    those handed out at loading, so they are unique, which is what the
    results on indexing below ask for. *)
Lemma date_sliced_base_unique_index to_datetime (rows : list (Row string))
    date1 date2 :
  ∃ df, date_slice (preprocess to_datetime (read_csv rows)) date1 date2 = Some df
        ∧ NoDup df.*1.
Proof.
  pose proof (preprocess_unique_index to_datetime _ (read_csv_unique_index rows)).
  eexists. split; [by apply date_slice_filter|]. by apply filter_unique_index.
Qed.

(** C7.  On a table with unique index labels the slice raises nothing and
    keeps exactly the rows with [date1 <= Order Date <= date2], both ends
    included; the bounds are not compared with each other, and when
    [date2 < date1] the outcome is the empty table. *)
Theorem date_slice_inclusive (df : DataFrame) (date1 date2 : Timestamp) :
  NoDup df.*1 →
  ∃ out, date_slice df date1 date2 = Some out
    ∧ out = filter (λ ir, in_date_range date1 date2 ir.2 = true) df
    ∧ (∀ ir, ir ∈ out ↔
         ir ∈ df ∧ ∃ d, Order_Date ir.2 = Some d
                        ∧ ts_leb date1 d = true ∧ ts_leb d date2 = true)
    ∧ (ts_ltb date2 date1 = true → out = []).
Proof.
  intros Hnd. eexists. split; [by apply date_slice_filter|].
  split; [done|]. split.
  - intros ir. rewrite list_elem_of_filter, in_date_range_iff. tauto.
  - intros Hlt. apply filter_none. intros ir _.
    by rewrite in_date_range_crossed.
Qed.

Lemma date_slice_inclusive_witness :
  date_slice sample_df apr05 dec20
  = Some [ (2, sample_row (Some apr05) "West" "California" "Austin" "Chairs" 20 2);
           (3, sample_row (Some dec20) "West" "California" "Fresno" "Tables" 30 3) ]
  ∧ date_slice sample_df dec20 apr05 = Some [].
Proof.
  assert (NoDup sample_df.*1) as Hnd by compute_done.
  split.
  - destruct (date_slice_inclusive sample_df apr05 dec20 Hnd)
      as (out & -> & -> & _). reflexivity.
  - destruct (date_slice_inclusive sample_df dec20 apr05 Hnd)
      as (out & -> & _ & _ & Hempty). by rewrite Hempty.
Defined.

(** ** The eight branches against the simplified filter *)

Lemma narrowed_nil get df : narrowed get [] df = df.
Proof. by apply filter_all. Qed.

Lemma narrowed_subseteq get sel df : narrowed get sel df ⊆ df.
Proof. apply list_subseteq_filter. Qed.

Lemma narrowed_unique_index get sel df :
  NoDup df.*1 → NoDup (narrowed get sel df).*1.
Proof. apply filter_unique_index. Qed.

Lemma narrow_region_spec df region :
  NoDup df.*1 → narrow_region df region = Some (narrowed Region region df).
Proof.
  intros Hnd. destruct region as [|x region]; simpl.
  - by rewrite narrowed_nil.
  - unfold narrow_region. simpl. by rewrite getitem_bool_mask_of.
Qed.

Lemma narrow_state_spec df state :
  NoDup df.*1 → narrow_state df state = Some (narrowed State state df).
Proof.
  intros Hnd. destruct state as [|x state]; simpl.
  - by rewrite narrowed_nil.
  - unfold narrow_state. simpl. by rewrite getitem_bool_mask_of.
Qed.

Lemma narrow_city_spec df city :
  NoDup df.*1 → narrow_city df city = Some (narrowed City city df).
Proof.
  intros Hnd. destruct city as [|x city]; simpl.
  - by rewrite narrowed_nil.
  - unfold narrow_city. simpl. by rewrite getitem_bool_mask_of.
Qed.

Lemma elem_of_narrowed get sel df ir :
  ir ∈ narrowed get sel df ↔ active sel (get ir.2) = true ∧ ir ∈ df.
Proof. unfold narrowed. by rewrite list_elem_of_filter. Qed.

(** Two tests select the same rows of a narrowed frame when they agree on
    the rows that passed the narrowing. *)
Ltac same_selection :=
  apply filter_ext_in; intros [? ?];
  rewrite ?elem_of_narrowed; unfold region_in, state_in, city_in; simpl;
  rewrite ?andb_true_iff; tauto.

(** The filtered table is the table the city selection narrows (the [df4]
    of line 220, which the script computes and leaves unused): each branch
    selects, from the base table or from [df3], the rows that the three
    narrowing steps keep. *)
Lemma filtered_df_narrowed df region state city :
  NoDup df.*1 →
  filtered_df df region state city
  = Some (narrowed City city (narrowed State state (narrowed Region region df))).
Proof.
  intros Hnd. unfold filtered_df.
  pose proof (narrowed_unique_index Region region df Hnd) as Hnd2.
  pose proof (narrowed_unique_index State state _ Hnd2) as Hnd3.
  assert (narrowed State state (narrowed Region region df) ⊆ df) as Hsub.
  { etrans; apply narrowed_subseteq. }
  rewrite narrow_region_spec by done. simpl.
  rewrite narrow_state_spec by done. simpl.
  rewrite narrow_city_spec by done. simpl.
  destruct region as [|r0 region], state as [|s0 state], city as [|c0 city];
    simpl;
    rewrite ?getitem_bool_mask_of, ?getitem_bool_and_narrow by done;
    f_equal; first [ by rewrite !narrowed_nil | same_selection ].
Qed.

(** The last branch (line 243) is never taken: some earlier test holds for
    each of the eight combinations. *)
Lemma last_branch_unreachable {A} (region state city : list A) :
  (negb (truthy region) && negb (truthy state) && negb (truthy city))
  || (negb (truthy state) && negb (truthy city))
  || (negb (truthy region) && negb (truthy city))
  || (truthy state && truthy city)
  || (truthy region && truthy city)
  || (truthy region && truthy state)
  || truthy city = true.
Proof. by destruct region, state, city. Qed.

(** C1.  On a date-sliced table (index labels unique) and for any three
    selections, empty or not, the eight-branch construction raises nothing
    and yields the rows of the base table that satisfy the conjunction of the
    non-empty membership constraints, in the order of the base table. *)
Theorem eight_branches_simplified (df : DataFrame) (region state city : list string) :
  NoDup df.*1 →
  filtered_df df region state city = Some (simplified_filter df region state city).
Proof.
  intros Hnd. rewrite filtered_df_narrowed by done. f_equal.
  unfold simplified_filter, narrowed. rewrite !list_filter_filter.
  apply list_filter_iff. intros [i r]. unfold simplified_predicate. simpl.
  rewrite !andb_true_iff. tauto.
Qed.

Example filtered_sample_region_city :
  filtered_df sample_df ["West"] [] ["Fresno"; "Boston"]
  = Some [ (3, sample_row (Some dec20) "West" "California" "Fresno" "Tables" 30 3) ].
Proof. reflexivity. Qed.

Lemma eight_branches_simplified_witness :
  NoDup sample_df.*1
  ∧ filtered_df sample_df ["West"] ["California"] ["Fresno"; "Austin"]
    = Some (simplified_filter sample_df ["West"] ["California"] ["Fresno"; "Austin"]).
Proof.
  assert (NoDup sample_df.*1) as Hnd by compute_done.
  split; [done|]. by apply eight_branches_simplified.
Defined.

(** C10.  Whatever the selections, the filtered table is cut out of the
    date-sliced base table: it is a sub-list of it, so each of its rows is a
    row of the base table, under the same label, and lies within the date
    range.  No branch raises, the ones that index the narrowed table with
    masks computed over the whole base table included. *)
Theorem filtered_rows_within_base (df0 : DataFrame) (date1 date2 : Timestamp)
    (region state city : list string) :
  NoDup df0.*1 →
  ∃ df out, date_slice df0 date1 date2 = Some df
    ∧ filtered_df df region state city = Some out
    ∧ out `sublist_of` df
    ∧ Forall (λ ir, ir ∈ df ∧ in_date_range date1 date2 ir.2 = true) out.
Proof.
  intros Hnd. eexists _, _. split; [by apply date_slice_filter|].
  split; [by apply filtered_df_narrowed, filter_unique_index|].
  split; [unfold narrowed; by rewrite !sublist_filter|].
  apply Forall_forall. intros ir Hin. rewrite !elem_of_narrowed in Hin.
  destruct Hin as (_ & _ & _ & Hin). split; [done|].
  by apply list_elem_of_filter in Hin as [? _].
Qed.

Lemma filtered_rows_within_base_witness :
  NoDup sample_df.*1
  ∧ ∃ df out, date_slice sample_df feb10 dec20 = Some df
      ∧ filtered_df df ["West"] ["California"] ["Fresno"] = Some out
      ∧ out `sublist_of` df
      ∧ Forall (λ ir, ir ∈ df ∧ in_date_range feb10 dec20 ir.2 = true) out.
Proof.
  assert (NoDup sample_df.*1) as Hnd by compute_done.
  split; [done|]. by apply filtered_rows_within_base.
Defined.

(** ** Sorting *)

Section SortFacts.
Context {A : Type} (leb : A → A → bool).

Lemma insert_sorted_Permutation x l : insert_sorted leb x l ≡ₚ x :: l.
Proof.
  induction l as [|y l IH]; simpl; [done|].
  destruct (leb x y); [done|]. by rewrite IH, Permutation_swap.
Qed.

Lemma stable_sort_Permutation l : stable_sort leb l ≡ₚ l.
Proof.
  induction l as [|x l IH]; simpl; [done|].
  by rewrite insert_sorted_Permutation, IH.
Qed.

Hypothesis leb_total : ∀ x y, leb x y = true ∨ leb y x = true.

Lemma insert_sorted_Sorted x l :
  Sorted (λ a b, leb a b = true) l →
  Sorted (λ a b, leb a b = true) (insert_sorted leb x l).
Proof.
  induction 1 as [|y l Hs IH Hhd]; simpl.
  - by repeat constructor.
  - destruct (leb x y) eqn:Hxy.
    + by repeat constructor.
    + constructor; [done|].
      assert (leb y x = true) by (destruct (leb_total x y); congruence).
      destruct Hhd as [|z l Hyz]; simpl; [by constructor|].
      destruct (leb x z); by constructor.
Qed.

Lemma stable_sort_Sorted l : Sorted (λ a b, leb a b = true) (stable_sort leb l).
Proof.
  induction l as [|x l IH]; simpl; [constructor|].
  by apply insert_sorted_Sorted.
Qed.
End SortFacts.

Lemma Sales_leb_total a b : Sales_leb a b = true ∨ Sales_leb b a = true.
Proof.
  unfold Sales_leb. rewrite !bool_decide_eq_true.
  destruct (Qc_le_total a.2 b.2); auto.
Qed.

Lemma sort_values_desc_Permutation t : sort_values_desc t ≡ₚ t.
Proof.
  unfold sort_values_desc.
  by rewrite reverse_Permutation, stable_sort_Permutation, reverse_Permutation.
Qed.

Lemma sort_values_desc_Sorted t : Sorted Sales_ge (sort_values_desc t).
Proof.
  unfold sort_values_desc.
  pose proof (stable_sort_Sorted Sales_leb Sales_leb_total (reverse t)) as Hs.
  apply Sorted_reverse in Hs. eapply Sorted_weaken; [|exact Hs].
  intros a b. unfold flip, Sales_leb, Sales_ge. by rewrite bool_decide_eq_true.
Qed.

(** ** Group keys and tables *)

Lemma elem_of_group_keys ks k : k ∈ group_keys ks ↔ k ∈ ks.
Proof.
  unfold group_keys. by rewrite stable_sort_Permutation, elem_of_remove_dups.
Qed.

Lemma NoDup_group_keys ks : NoDup (group_keys ks).
Proof.
  unfold group_keys. rewrite stable_sort_Permutation. apply NoDup_remove_dups.
Qed.

Lemma group_keys_Sorted ks :
  Sorted (λ a b, String.leb a b = true) (group_keys ks).
Proof. apply stable_sort_Sorted, String.leb_total. Qed.

Lemma length_group_keys ks : length (group_keys ks) = length (remove_dups ks).
Proof. unfold group_keys. by rewrite stable_sort_Permutation. Qed.

Lemma omap_Some_column {D A} (f : Row D → A) (df : Frame D) :
  omap (λ ir, Some (f ir.2)) df = column f df.
Proof.
  unfold column. induction df as [|ir df IH]; [done|].
  csimpl. by f_equal.
Qed.

Lemma groupby_keys {D B} (key : Row D → option string) (agg : Frame D → B) df :
  (groupby key agg df).*1 = group_keys (omap (λ ir, key ir.2) df).
Proof.
  unfold groupby. rewrite <- list_fmap_compose. apply list_fmap_id.
Qed.

(** The rows of the monthly series come in the order of their labels. *)
Lemma linechart_keys_by_label (df : DataFrame) :
  Sorted (λ a b, String.leb a b = true) (linechart df).*1.
Proof. unfold linechart, groupby_sum. rewrite groupby_keys. apply group_keys_Sorted. Qed.

Lemma assoc_fmap_key {B} (f : string → B) (ks : list string) k :
  assoc k ((λ k, (k, f k)) <$> ks) = if decide (k ∈ ks) then Some (f k) else None.
Proof.
  induction ks as [|k' ks IH]; [done|].
  rewrite fmap_cons. cbn [assoc].
  destruct (decide (k = k')) as [->|Hne].
  - by rewrite (decide_True (P:=k' ∈ k' :: ks)) by left.
  - rewrite IH. apply decide_ext. rewrite elem_of_cons. tauto.
Qed.

(** Two tables are equal when their keys and the fractions in their value
    column are. *)
Lemma Qc_table_eq (t1 t2 : list (string * Qc)) :
  prod_map id this <$> t1 = prod_map id this <$> t2 → t1 = t2.
Proof.
  revert t2. induction t1 as [|[k1 q1] t1 IH]; intros [|[k2 q2] t2] H;
    try done. injection H as -> Hq Ht. f_equal; [|by apply IH].
  f_equal. apply Qc_is_canon. by rewrite Hq.
Qed.

(** ** Sums over groups *)

#[global] Instance sum_Qc_Permutation : Proper ((≡ₚ) ==> (=)) sum_Qc.
Proof.
  induction 1 as [|x l l' _ IH|x y l|l l' l'' _ IH1 _ IH2]; simpl.
  - done.
  - by rewrite IH.
  - by rewrite !Qcplus_assoc, (Qcplus_comm x y).
  - congruence.
Qed.

(** ** Groups partition the rows *)

Lemma filter_split_Permutation {A} (P Q R : A → Prop)
    `{!∀ x, Decision (P x), !∀ x, Decision (Q x), !∀ x, Decision (R x)}
    (l : list A) :
  (∀ x, P x → Q x → False) → (∀ x, R x ↔ P x ∨ Q x) →
  filter P l ++ filter Q l ≡ₚ filter R l.
Proof.
  intros Hdis HR. induction l as [|x l IH]; [done|].
  rewrite !filter_cons. pose proof (Hdis x) as Hx. pose proof (HR x) as HRx.
  destruct (decide (P x)) as [HP|HP], (decide (Q x)) as [HQ|HQ],
           (decide (R x)) as [Hr|Hr];
    try (exfalso; tauto).
  - cbn. by rewrite IH.
  - rewrite <- Permutation_middle. by rewrite IH.
  - done.
Qed.

Lemma fmap_concat {A B} (f : A → B) (ls : list (list A)) :
  f <$> concat ls = concat ((λ l : list A, f <$> l) <$> ls).
Proof.
  induction ls as [|l ls IH]; [done|]. cbn [concat]. by rewrite fmap_app, IH.
Qed.

Section Groups.
Context {A : Type} (key : A → option string).

(** The groups of a duplicate-free list of keys hold, between them, every
    element whose key is listed, once. *)
Lemma groups_listed (ks : list string) (l : list A) :
  NoDup ks →
  concat ((λ k, filter (λ x, key x = Some k) l) <$> ks)
  ≡ₚ filter (λ x, key_in ks (key x) = true) l.
Proof.
  induction 1 as [|k ks Hk Hnd IH].
  - cbn. rewrite filter_none; [done|]. intros x _. by destruct (key x).
  - rewrite fmap_cons. cbn [concat]. rewrite IH.
    apply filter_split_Permutation.
    + intros x Hx Hin. rewrite Hx in Hin. cbn [key_in] in Hin.
      by apply bool_decide_eq_true in Hin.
    + intros x. destruct (key x) as [k'|]; cbn [key_in].
      * rewrite !bool_decide_eq_true, elem_of_cons. split.
        -- intros [->|Hin]; [by left|by right].
        -- intros [[= ->]|Hin]; [by left|by right].
      * split; [done|]. by intros [|].
Qed.

(** Grouping loses the elements without a key and no other, and counts none
    twice. *)
Lemma groups_partition (l : list A) :
  concat ((λ k, filter (λ x, key x = Some k) l) <$> group_keys (omap key l))
  ≡ₚ filter (λ x, is_Some (key x)) l.
Proof.
  rewrite groups_listed by apply NoDup_group_keys.
  erewrite filter_ext_in; [done|]. intros x Hin.
  destruct (key x) as [k|] eqn:Hk; cbn [key_in].
  - rewrite bool_decide_eq_true, elem_of_group_keys, list_elem_of_omap.
    split; [eauto|]. intros _. by exists x.
  - split; [done|]. intros [k Hk']. congruence.
Qed.
End Groups.

(** ** Category totals against the total-sales KPI *)

(** The depth of the cuts never runs out: any two bounds from the length of
    the array upwards give the same sum. *)
Lemma pairwise_sum_fuel (f1 f2 : nat) (l : list float) :
  (length l ≤ f1)%nat → (length l ≤ f2)%nat →
  pairwise_sum f1 l = pairwise_sum f2 l.
Proof.
  revert f2 l. induction f1 as [|f1 IH]; intros f2 l H1 H2.
  - destruct l; [|simpl in H1; lia]. by destruct f2.
  - destruct f2 as [|f2]; [destruct l; [done|simpl in H2; lia]|].
    cbn [pairwise_sum]. repeat case_decide; try done.
    assert (0 < length l `div` 2 - (length l `div` 2) `mod` 8 < length l)%nat
      as Hn2.
    { pose proof (Nat.mod_upper_bound (length l `div` 2) 8 ltac:(lia)).
      pose proof (Nat.div_mod_eq (length l) 2).
      pose proof (Nat.mod_upper_bound (length l) 2 ltac:(lia)). lia. }
    f_equal; apply IH; rewrite ?length_take, ?length_drop; lia.
Qed.

(** C8 as stated fails: three lines of one category with sales of 0.1, 0.2
    and 0.3.  The category total, a compensated sum, is 0.6; the KPI, added
    from left to right, is 0.6000000000000001. *)
Lemma category_totals_off_by_rounding : ¬ additivity_claim three_tenths.
Proof.
  intros H. apply (f_equal (λ x, PrimFloat.eqb x (6 / 10)%float)) in H.
  vm_compute in H. discriminate H.
Qed.

Example three_tenths_sums :
  PrimFloat.eqb (Series_sum_f64 (category_df_f64 three_tenths).*2) (6 / 10) = true
  ∧ PrimFloat.ltb (6 / 10) (total_sales_f64 three_tenths) = true.
Proof. by vm_compute. Qed.

(** A line without a category is in no group, yet it counts in the KPI. *)
Example null_category_not_in_totals :
  category_df_f64 no_category = [] ∧ ¬ additivity_claim no_category.
Proof.
  split; [done|]. intros H.
  apply (f_equal (λ x, PrimFloat.eqb x 0)) in H. vm_compute in H. discriminate H.
Qed.

(** C8, as far as it holds.  The category-totals table has one row for each
    category that occurs, none twice; the row of a category holds the
    compensated float64 sum of the Sales of its lines, taken in row order;
    and the groups hold, between them, every line that has a category, once.
    A line with a null Category is in no group. *)
Theorem category_totals_partition (rows : CategorySales) :
  NoDup (category_df_f64 rows).*1
  ∧ (∀ c, c ∈ (category_df_f64 rows).*1 ↔ Some c ∈ rows.*1)
  ∧ Forall (λ kv, kv.2 = group_sum_f64 (category_group rows kv.1))
           (category_df_f64 rows)
  ∧ concat (category_group rows <$> (category_df_f64 rows).*1)
    ≡ₚ (filter (λ r, is_Some r.1) rows).*2.
Proof.
  assert ((category_df_f64 rows).*1 = group_keys (omap fst rows)) as Hkeys.
  { unfold category_df_f64. rewrite <- list_fmap_compose. apply list_fmap_id. }
  rewrite Hkeys. split_and!.
  - apply NoDup_group_keys.
  - intros c. rewrite elem_of_group_keys, list_elem_of_omap, list_elem_of_fmap.
    split.
    + intros (r & Hin & Hr). by exists r.
    + intros (r & Hr & Hin). by exists r.
  - unfold category_df_f64. apply Forall_fmap, Forall_forall. by intros c _.
  - rewrite <- (groups_partition fst rows), fmap_concat, <- list_fmap_compose.
    done.
Qed.

(** ** The top-10 ranking *)

Lemma length_top_cities {D} (df : Frame D) :
  length (top_cities df) = min 10 (length (remove_dups (column City df))).
Proof.
  unfold top_cities. rewrite length_take, sort_values_desc_Permutation.
  unfold groupby_sum. rewrite <- (length_fmap fst), groupby_keys.
  by rewrite length_group_keys, omap_Some_column.
Qed.

(** C6, as amended.  The top-10 table has min(10, number of distinct cities)
    rows and is in descending order of summed sales: it is the head of a
    descending arrangement of the per-city totals.  Nothing is said of the
    order among equal totals. *)
Theorem top_cities_sorted_prefix (df : DataFrame) :
  length (top_cities df) = min 10 (length (remove_dups (column City df)))
  ∧ Sorted Sales_ge (top_cities df)
  ∧ ∃ rest, top_cities df ++ rest ≡ₚ groupby_sum (λ r, Some (City r)) Sales df
            ∧ Sorted Sales_ge (top_cities df ++ rest).
Proof.
  split_and!.
  - apply length_top_cities.
  - apply Sorted_take, sort_values_desc_Sorted.
  - exists (drop 10 (sort_values_desc (groupby_sum (λ r, Some (City r)) Sales df))).
    unfold top_cities. rewrite take_drop. split.
    + apply sort_values_desc_Permutation.
    + apply sort_values_desc_Sorted.
Qed.

(** C6 as stated fails: Boston precedes Austin in the table and both total
    10, yet the ranking lists Austin first; the sort is handed the groups in
    ascending order of city name. *)
Lemma top_cities_ties_by_name : ¬ top_cities_claim boston_austin.
Proof.
  intros (_ & _ & Hties).
  assert (top_cities boston_austin
          = [("Austin", Qc_of_Z 10); ("Boston", Qc_of_Z 10)]) as Htop.
  { apply Qc_table_eq. by vm_compute. }
  specialize (Hties 0 1 "Austin" "Boston" (Qc_of_Z 10)).
  rewrite Htop in Hties. vm_compute in Hties.
  specialize (Hties ltac:(lia) eq_refl eq_refl). lia.
Qed.

(** ** The pivot *)

Lemma pivot_cell_spec (df : DataFrame) (s m : string) :
  pivot_cell (sub_category_year df) s m = pivot_cell_of df s m.
Proof.
  unfold pivot_cell, sub_category_year.
  rewrite (assoc_fmap_key
             (λ s, (λ m, (m, pivot_cell_of df s m))
                     <$> group_keys (omap (λ ir, month_col ir.2) df))).
  case_decide as Hs; simpl.
  - rewrite (assoc_fmap_key (λ m, pivot_cell_of df s m)).
    case_decide as Hm; simpl; [done|]. symmetry.
    unfold pivot_cell_of.
    rewrite filter_none; [done|].
    intros [i r] Hin [_ Hmonth]. apply Hm.
    rewrite elem_of_group_keys, list_elem_of_omap. by exists (i, r).
  - symmetry. unfold pivot_cell_of.
    rewrite filter_none; [done|].
    intros [i r] Hin [Hsub Hmonth]. apply Hs.
    rewrite elem_of_group_keys. unfold column, pivot_rows.
    apply list_elem_of_fmap. exists (i, r). split; [by rewrite Hsub|].
    apply list_elem_of_filter. split; [|done]. rewrite Hmonth. eauto.
Qed.

(** C2, as amended.  The cell of the pivot at a sub-category and a month name
    is the mean of Sales over the rows with that sub-category and that
    month, whatever their year; it is null exactly when there is no such
    row. *)
Theorem pivot_cell_is_mean (df : DataFrame) (s m : string) :
  pivot_cell (sub_category_year df) s m
  = mean (column Sales (filter (λ ir, Sub_Category ir.2 = s
                                      ∧ month_col ir.2 = Some m) df))
  ∧ (pivot_cell (sub_category_year df) s m = None
     ↔ filter (λ ir, Sub_Category ir.2 = s ∧ month_col ir.2 = Some m) df = []).
Proof.
  rewrite pivot_cell_spec. split; [done|]. unfold pivot_cell_of, column.
  destruct (filter _ df) as [|ir l]; by split.
Qed.

(** C2 as stated fails: two February lines of Chairs, 10 and 30, give the
    cell 20, not 40. *)
Lemma pivot_cell_not_sum : ¬ pivot_sum_claim chairs_february.
Proof.
  intros H. specialize (H "Chairs" "February").
  apply (f_equal (fmap (M:=option) this)) in H. vm_compute in H. discriminate H.
Qed.

Example pivot_chairs_february :
  fmap (M:=option) this (pivot_cell (sub_category_year chairs_february) "Chairs" "February")
  = Some (20 # 1)%Q.
Proof. by vm_compute. Qed.

(** ** Profit margin *)

Lemma Qc_ratio_zero (p s : Qc) :
  (0 < s)%Qc → (p / s * Qc_of_Z 100 = 0)%Qc ↔ p = 0%Qc.
Proof.
  intros Hs. assert (s ≠ 0%Qc) as Hs0 by (intros ->; by apply Qclt_not_eq in Hs).
  split.
  - intros [H|H]%Qcmult_integral; [|done].
    apply Qcmult_integral in H as [H|H]; [done|].
    exfalso. apply Q_apart_0_1.
    rewrite <- (Qcmult_inv_r s Hs0), H. ring.
  - intros ->. unfold Qcdiv. ring.
Qed.

(** C5, as amended.  The margin is 0 exactly when total sales are not
    positive or total profit is 0; so it is 0 whenever total sales are 0,
    whatever the profit, and when total sales are positive it is
    total profit / total sales x 100. *)
Theorem profit_margin_zero_iff (df : DataFrame) :
  (profit_margin df = 0%Qc ↔ (total_sales df ≤ 0)%Qc ∨ total_profit df = 0%Qc)
  ∧ (total_sales df = 0%Qc → profit_margin df = 0%Qc)
  ∧ ((0 < total_sales df)%Qc →
     profit_margin df = (total_profit df / total_sales df * Qc_of_Z 100)%Qc).
Proof.
  unfold profit_margin. case_bool_decide as Hs.
  - rewrite (Qc_ratio_zero _ _ Hs). split_and!; [|intros H; by rewrite H in Hs|done].
    split; [auto|]. intros [Hle|]; [|done]. by apply Qcle_not_lt in Hle.
  - split_and!; [|done|done]. split; [|done]. intros _. left. by apply Qcnot_lt_le.
Qed.

Lemma profit_margin_zero_iff_witness :
  profit_margin no_profit = 0%Qc
  ∧ profit_margin sample_df
    = (total_profit sample_df / total_sales sample_df * Qc_of_Z 100)%Qc.
Proof.
  split.
  - apply (proj1 (profit_margin_zero_iff no_profit)). right.
    apply Qc_is_canon. by vm_compute.
  - apply (proj2 (proj2 (profit_margin_zero_iff sample_df))). by vm_compute.
Defined.

(** C5 as stated fails: with sales of 100 and a profit of 0 the margin is 0
    although total sales are not. *)
Lemma margin_zero_with_sales : ¬ margin_claim no_profit.
Proof.
  intros [[H _] _]. assert (profit_margin no_profit = 0%Qc) as H0.
  { apply Qc_is_canon. by vm_compute. }
  apply H in H0. apply (f_equal this) in H0. vm_compute in H0. discriminate H0.
Qed.

(** ** The monthly series *)

(** C3, at a table with one line on 10 February 2023 and one on 5 April
    2023: the series lists April before February, against the order of the
    dates. *)
Theorem linechart_april_before_february :
  (linechart two_months).*1 = ["2023 : Apr"; "2023 : Feb"]
  ∧ column Order_Date two_months = [Some feb10; Some apr05]
  ∧ ts_ltb feb10 apr05 = true.
Proof. by vm_compute. Qed.

(** Across a change of year the labels do follow the dates. *)
Example linechart_december_before_january :
  (linechart sample_df).*1
  = ["2023 : Apr"; "2023 : Dec"; "2023 : Feb"; "2024 : Jan"].
Proof. by vm_compute. Qed.

(** ** The empty table *)

(** C4, at the table with no rows: the sums, the margin and the customer
    count are 0 and every summary table is empty, but the average order value
    is NaN, with or without an Order ID column; line 255 has no guard of the
    kind line 254 has. *)
Theorem empty_table_kpis (columns : list string) :
  total_sales ([] : DataFrame) = 0%Qc
  ∧ total_profit ([] : DataFrame) = 0%Qc
  ∧ total_quantity ([] : DataFrame) = 0%Z
  ∧ profit_margin ([] : DataFrame) = 0%Qc
  ∧ unique_customers columns ([] : DataFrame) = 0
  ∧ avg_order_value columns ([] : DataFrame) = None
  ∧ category_df ([] : DataFrame) = []
  ∧ top_cities ([] : DataFrame) = []
  ∧ linechart [] = []
  ∧ segment_df ([] : DataFrame) = []
  ∧ category_pie_df ([] : DataFrame) = []
  ∧ region_performance ([] : DataFrame) = []
  ∧ sub_category_year [] = []
  ∧ default [] (top_products columns ([] : DataFrame)) = []
  ∧ category_profit ([] : DataFrame) = [].
Proof.
  repeat split; try done.
  - unfold unique_customers. by case_bool_decide.
  - unfold avg_order_value. by case_bool_decide.
  - unfold top_products. by case_bool_decide.
Qed.

(** * Further properties of the script *)

(** ** The whole run *)

(** X1.  From any uploaded rows, with any parser, bounds and selections, the
    run from loading to the filtered table raises nothing, and its outcome is
    the preprocessed table cut down to the date range and to the non-empty
    selections. *)
Theorem run_filters_total to_datetime (rows : list (Row string))
    (date1 date2 : Timestamp) (region state city : list string) :
  run_filters to_datetime rows date1 date2 region state city
  = Some (filter (λ ir, simplified_predicate region state city ir.2 = true)
            (filter (λ ir, in_date_range date1 date2 ir.2 = true)
               (preprocess to_datetime (read_csv rows)))).
Proof.
  unfold run_filters.
  pose proof (preprocess_unique_index to_datetime _ (read_csv_unique_index rows))
    as Hnd.
  rewrite date_slice_filter by done. cbn [mbind option_bind].
  rewrite filtered_df_narrowed by (by apply filter_unique_index). f_equal.
  unfold narrowed. rewrite !list_filter_filter.
  apply list_filter_iff. intros [i r]. unfold simplified_predicate. simpl.
  rewrite !andb_true_iff. tauto.
Qed.

(** ** The option lists *)

Lemma elem_of_unique l x : x ∈ unique l ↔ x ∈ l.
Proof.
  induction l as [|y l IH]; [done|]. cbn [unique].
  rewrite !elem_of_cons, list_elem_of_filter, IH.
  destruct (decide (x = y)); tauto.
Qed.

Lemma NoDup_unique l : NoDup (unique l).
Proof.
  induction l as [|y l IH]; cbn [unique]; constructor.
  - rewrite list_elem_of_filter. tauto.
  - by apply NoDup_filter.
Qed.

(** X2.  The cities on offer are, each once, the cities of the rows of the
    base table that pass the region and state selections, an empty selection
    letting every row pass; the states on offer are those of the rows that
    pass the region selection. *)
Theorem options_cascade (df : DataFrame) (region state : list string) :
  NoDup df.*1 →
  ∃ states cities,
    state_options df region = Some states
    ∧ city_options df region state = Some cities
    ∧ NoDup states ∧ NoDup cities
    ∧ (∀ s, s ∈ states ↔
         ∃ ir, ir ∈ df ∧ State ir.2 = s ∧ active region (Region ir.2) = true)
    ∧ (∀ c, c ∈ cities ↔
         ∃ ir, ir ∈ df ∧ City ir.2 = c ∧ active region (Region ir.2) = true
               ∧ active state (State ir.2) = true).
Proof.
  intros Hnd. unfold state_options, city_options.
  rewrite narrow_region_spec by done. cbn [mbind option_bind].
  rewrite narrow_state_spec by (by apply narrowed_unique_index).
  cbn [mbind option_bind]. eexists _, _.
  split_and!; try done; try apply NoDup_unique.
  - intros s. rewrite elem_of_unique. unfold column.
    rewrite list_elem_of_fmap. split.
    + intros (ir & -> & Hin). apply elem_of_narrowed in Hin as [? ?]. eauto.
    + intros (ir & Hin & <- & HR). exists ir. split; [done|].
      by apply elem_of_narrowed.
  - intros c. rewrite elem_of_unique. unfold column.
    rewrite list_elem_of_fmap. split.
    + intros (ir & -> & Hin). rewrite !elem_of_narrowed in Hin.
      destruct Hin as (? & ? & ?). eauto 6.
    + intros (ir & Hin & <- & HR & HS). exists ir. split; [done|].
      by rewrite !elem_of_narrowed.
Qed.

Lemma options_cascade_witness :
  ∃ states cities,
    state_options sample_df ["West"] = Some states
    ∧ city_options sample_df ["West"] ["California"] = Some cities
    ∧ NoDup states ∧ NoDup cities
    ∧ (∀ s, s ∈ states ↔
         ∃ ir, ir ∈ sample_df ∧ State ir.2 = s
               ∧ active ["West"] (Region ir.2) = true)
    ∧ (∀ c, c ∈ cities ↔
         ∃ ir, ir ∈ sample_df ∧ City ir.2 = c
               ∧ active ["West"] (Region ir.2) = true
               ∧ active ["California"] (State ir.2) = true).
Proof. apply options_cascade. compute_done. Defined.

Example city_options_sample :
  city_options sample_df ["West"] [] = Some ["Austin"; "Fresno"].
Proof. reflexivity. Qed.

(** X3.  A selection that holds a value on offer never empties the table:
    with a city on offer among the chosen cities, or no city chosen and a
    state on offer among the chosen states, or neither chosen and a region
    of the table among the chosen regions, the filtered table has a row. *)
Theorem offered_selection_keeps_a_row (df : DataFrame)
    (region state city : list string) :
  NoDup df.*1 →
  (∃ c, c ∈ city ∧ c ∈ default [] (city_options df region state))
  ∨ (city = [] ∧ ∃ s, s ∈ state ∧ s ∈ default [] (state_options df region))
  ∨ (city = [] ∧ state = [] ∧ ∃ r, r ∈ region ∧ r ∈ region_options df) →
  ∃ out, filtered_df df region state city = Some out ∧ out ≠ [].
Proof.
  intros Hnd Hsel. rewrite filtered_df_narrowed by done. eexists. split; [done|].
  unfold city_options, state_options, region_options in Hsel.
  rewrite narrow_region_spec in Hsel by done. cbn [mbind option_bind] in Hsel.
  rewrite narrow_state_spec in Hsel by (by apply narrowed_unique_index).
  cbn [mbind option_bind default] in Hsel.
  assert (∃ ir, ir ∈ narrowed City city
                       (narrowed State state (narrowed Region region df)))
    as [ir Hir]; [|by intros Heq; rewrite Heq in Hir; apply elem_of_nil in Hir].
  destruct Hsel as [(c & Hc & Hopt)|[(-> & s & Hs & Hopt)|(-> & -> & r & Hr & Hopt)]];
    apply elem_of_unique, list_elem_of_fmap in Hopt as (ir & -> & Hin);
    exists ir; rewrite ?narrowed_nil, ?elem_of_narrowed in *.
  - split; [|done]. destruct city; [by apply elem_of_nil in Hc|].
    by apply bool_decide_eq_true.
  - split; [|done]. destruct state; [by apply elem_of_nil in Hs|].
    by apply bool_decide_eq_true.
  - split; [|done]. destruct region; [by apply elem_of_nil in Hr|].
    by apply bool_decide_eq_true.
Qed.

Lemma offered_selection_keeps_a_row_witness :
  ∃ out, filtered_df sample_df ["West"] [] ["Fresno"; "Boston"] = Some out
         ∧ out ≠ [].
Proof.
  apply offered_selection_keeps_a_row; [compute_done|].
  left. exists "Fresno". split; compute_done.
Defined.

(** ** Filtering again, and clearing a selection *)

Lemma filter_fixed {A} (P : A → Prop) `{!∀ x, Decision (P x)} (l : list A) :
  (∀ x, x ∈ l → P x) → filter P l = l.
Proof.
  induction l as [|x l IH]; intros HP; [done|].
  rewrite filter_cons_True by (apply HP; left).
  f_equal. apply IH. intros; apply HP; by right.
Qed.

(** X4.  Filtering the filtered table once more with the same selections
    gives it back unchanged. *)
Theorem filtered_df_idempotent (df : DataFrame) (region state city : list string) :
  NoDup df.*1 →
  ∃ out, filtered_df df region state city = Some out
         ∧ filtered_df out region state city = Some out.
Proof.
  intros Hnd. eexists. split; [by apply filtered_df_narrowed|].
  rewrite filtered_df_narrowed by (by do 3 apply narrowed_unique_index).
  f_equal.
  set (out := narrowed City city (narrowed State state (narrowed Region region df))).
  assert (∀ ir, ir ∈ out → active region (Region ir.2) = true
                           ∧ active state (State ir.2) = true
                           ∧ active city (City ir.2) = true) as Hout.
  { intros ir Hin. unfold out in Hin. rewrite !elem_of_narrowed in Hin. tauto. }
  assert (narrowed Region region out = out) as ->.
  { apply filter_fixed. intros ir Hin. by apply Hout. }
  assert (narrowed State state out = out) as ->.
  { apply filter_fixed. intros ir Hin. by apply Hout. }
  apply filter_fixed. intros ir Hin. by apply Hout.
Qed.

Lemma filtered_df_idempotent_witness :
  ∃ out, filtered_df sample_df ["West"] ["California"] ["Fresno"] = Some out
         ∧ filtered_df out ["West"] ["California"] ["Fresno"] = Some out.
Proof. apply filtered_df_idempotent. compute_done. Defined.

Lemma filter_sublist_mono {A} (P : A → Prop) `{!∀ x, Decision (P x)}
    (l1 l2 : list A) :
  l1 `sublist_of` l2 → filter P l1 `sublist_of` filter P l2.
Proof.
  induction 1 as [|x l1 l2 _ IH|x l1 l2 _ IH]; [done| |];
    rewrite !filter_cons; case_decide; try done.
  - by apply sublist_skip.
  - by apply sublist_cons.
Qed.

(** X5.  Clearing one of the three selections never loses a row: the table
    filtered with all three is a sub-list of the table filtered with the
    city selection cleared, with the state selection cleared, and with the
    region selection cleared. *)
Theorem clearing_a_selection_widens (df : DataFrame)
    (region state city : list string) :
  NoDup df.*1 →
  ∃ out no_city no_state no_region,
    filtered_df df region state city = Some out
    ∧ filtered_df df region state [] = Some no_city
    ∧ filtered_df df region [] city = Some no_state
    ∧ filtered_df df [] state city = Some no_region
    ∧ out `sublist_of` no_city
    ∧ out `sublist_of` no_state
    ∧ out `sublist_of` no_region.
Proof.
  intros Hnd. eexists _, _, _, _.
  rewrite !filtered_df_narrowed by done.
  split_and!; try done; rewrite ?narrowed_nil; unfold narrowed.
  - apply sublist_filter.
  - apply filter_sublist_mono, sublist_filter.
  - apply filter_sublist_mono, filter_sublist_mono, sublist_filter.
Qed.

Lemma clearing_a_selection_widens_witness :
  ∃ out no_city no_state no_region,
    filtered_df sample_df ["West"] ["California"] ["Fresno"] = Some out
    ∧ filtered_df sample_df ["West"] ["California"] [] = Some no_city
    ∧ filtered_df sample_df ["West"] [] ["Fresno"] = Some no_state
    ∧ filtered_df sample_df [] ["California"] ["Fresno"] = Some no_region
    ∧ out `sublist_of` no_city
    ∧ out `sublist_of` no_state
    ∧ out `sublist_of` no_region.
Proof. apply clearing_a_selection_widens. compute_done. Defined.

(** ** The default date range *)

Lemma ts_leb_refl a : ts_leb a a = true.
Proof.
  unfold ts_leb, ts_compare. by rewrite N.compare_refl, Z.compare_refl, N.compare_refl.
Qed.

Lemma ts_leb_total a b : ts_leb a b = true ∨ ts_leb b a = true.
Proof.
  unfold ts_leb, ts_compare.
  rewrite (N.compare_antisym (year a) (year b)),
          (Z.compare_antisym (month_number (month a)) (month_number (month b))),
          (N.compare_antisym (day a) (day b)).
  destruct (year a ?= year b)%N; simpl; auto.
  destruct (month_number (month a) ?= month_number (month b))%Z; simpl; auto.
  destruct (day a ?= day b)%N; simpl; auto.
Qed.

Lemma series_min_lower l lo d :
  series_reduce ts_min l = Some lo → Some d ∈ l → ts_leb lo d = true.
Proof.
  revert lo. induction l as [|[x|] l IH]; intros lo Hmin Hin.
  - by apply elem_of_nil in Hin.
  - cbn [series_reduce] in Hmin. apply elem_of_cons in Hin.
    destruct (series_reduce ts_min l) as [m|] eqn:Hm.
    + injection Hmin as <-. unfold ts_min.
      destruct (ts_leb x m) eqn:Hxm.
      * destruct Hin as [[= ->]|Hin]; [apply ts_leb_refl|].
        eapply ts_leb_trans; [exact Hxm|]. by apply IH.
      * destruct Hin as [[= ->]|Hin]; [|by apply IH].
        destruct (ts_leb_total x m); congruence.
    + injection Hmin as <-. destruct Hin as [[= ->]|Hin]; [apply ts_leb_refl|].
      exfalso. clear IH. induction l as [|[y|] l IHl]; cbn [series_reduce] in Hm.
      * by apply elem_of_nil in Hin.
      * by destruct (series_reduce ts_min l).
      * apply elem_of_cons in Hin as [?|?]; [done|by apply IHl].
  - cbn [series_reduce] in Hmin. apply elem_of_cons in Hin as [?|?]; [done|].
    by apply IH.
Qed.

Lemma series_max_upper l hi d :
  series_reduce ts_max l = Some hi → Some d ∈ l → ts_leb d hi = true.
Proof.
  revert hi. induction l as [|[x|] l IH]; intros hi Hmax Hin.
  - by apply elem_of_nil in Hin.
  - cbn [series_reduce] in Hmax. apply elem_of_cons in Hin.
    destruct (series_reduce ts_max l) as [m|] eqn:Hm.
    + injection Hmax as <-. unfold ts_max.
      destruct (ts_leb x m) eqn:Hxm.
      * destruct Hin as [[= ->]|Hin]; [done|]. by apply IH.
      * destruct Hin as [[= ->]|Hin]; [apply ts_leb_refl|].
        eapply ts_leb_trans; [by apply IH|].
        destruct (ts_leb_total x m); congruence.
    + injection Hmax as <-. destruct Hin as [[= ->]|Hin]; [apply ts_leb_refl|].
      exfalso. clear IH. induction l as [|[y|] l IHl]; cbn [series_reduce] in Hm.
      * by apply elem_of_nil in Hin.
      * by destruct (series_reduce ts_max l).
      * apply elem_of_cons in Hin as [?|?]; [done|by apply IHl].
  - cbn [series_reduce] in Hmax. apply elem_of_cons in Hin as [?|?]; [done|].
    by apply IH.
Qed.

Lemma series_reduce_is_Some f l d : Some d ∈ l → is_Some (series_reduce f l).
Proof.
  induction l as [|[x|] l IH]; intros Hin.
  - by apply elem_of_nil in Hin.
  - cbn [series_reduce]. destruct (series_reduce f l); eauto.
  - cbn [series_reduce]. apply elem_of_cons in Hin as [?|?]; [done|]. by apply IH.
Qed.

(** X6.  On a preprocessed, non-empty table the default bounds exist, the
    lower is not after the upper, and slicing with them keeps every row: the
    date filter does nothing until the user moves a bound. *)
Theorem default_range_keeps_all (df : DataFrame) :
  NoDup df.*1 → Forall (λ ir, is_Some (Order_Date ir.2)) df → df ≠ [] →
  ∃ lo hi, startDate df = Some lo ∧ endDate df = Some hi
           ∧ ts_leb lo hi = true
           ∧ date_slice df lo hi = Some df.
Proof.
  intros Hnd Hdates Hne. unfold startDate, endDate.
  destruct df as [|[i0 r0] df']; [done|]. set (df := (i0, r0) :: df') in *.
  assert (∃ d0, Some d0 ∈ column Order_Date df) as [d0 Hd0].
  { apply Forall_cons in Hdates as [[d0 Hd] _]. exists d0.
    cbn. rewrite <- Hd. left. }
  destruct (series_reduce_is_Some ts_min _ _ Hd0) as [lo Hlo].
  destruct (series_reduce_is_Some ts_max _ _ Hd0) as [hi Hhi].
  exists lo, hi. split_and!; [done|done| |].
  - eapply ts_leb_trans; [by eapply series_min_lower|by eapply series_max_upper].
  - rewrite date_slice_filter by done. f_equal. apply filter_fixed.
    intros [i r] Hin. apply in_date_range_iff.
    rewrite Forall_forall in Hdates. destruct (Hdates _ Hin) as [d Hd].
    exists d. cbn [snd] in *. split; [done|].
    assert (Some d ∈ column Order_Date df).
    { rewrite <- Hd. apply (list_elem_of_fmap_2 (λ ir, Order_Date ir.2) df (i, r) Hin). }
    split; [by eapply series_min_lower|by eapply series_max_upper].
Qed.

Lemma default_range_keeps_all_witness :
  ∃ lo hi, startDate sample_df = Some lo ∧ endDate sample_df = Some hi
           ∧ ts_leb lo hi = true
           ∧ date_slice sample_df lo hi = Some sample_df.
Proof.
  apply default_range_keeps_all; [compute_done| |done].
  repeat constructor; by eexists.
Defined.

Example default_range_sample :
  startDate sample_df = Some feb10 ∧ endDate sample_df = Some jan15.
Proof. by vm_compute. Qed.

(** ** Shares, regional totals and the monthly series as partitions *)

Lemma groupby_sum_keys {D} (key : Row D → option string) (val : Row D → Qc)
    (df : Frame D) :
  (groupby_sum key val df).*1 = group_keys (omap (λ ir, key ir.2) df).
Proof. apply groupby_keys. Qed.

Lemma groupby_sum_values {D} (key : Row D → option string) (val : Row D → Qc)
    (df : Frame D) :
  Forall (λ kv, kv.2 = group_sum key val df kv.1) (groupby_sum key val df).
Proof.
  unfold groupby_sum, groupby. apply Forall_fmap, Forall_forall. by intros k _.
Qed.


Lemma sum_Z_app (l1 l2 : list Z) : sum_Z (l1 ++ l2) = (sum_Z l1 + sum_Z l2)%Z.
Proof. induction l1 as [|x l1 IH]; cbn [sum_Z app]; lia. Qed.

#[global] Instance sum_Z_Permutation : Proper ((≡ₚ) ==> (=)) sum_Z.
Proof.
  induction 1 as [|x l l' _ IH|x y l|l l' l'' _ IH1 _ IH2]; cbn [sum_Z]; lia.
Qed.

Lemma sum_Z_concat (ls : list (list Z)) :
  sum_Z (concat ls) = sum_Z (sum_Z <$> ls).
Proof.
  induction ls as [|l ls IH]; [done|].
  cbn [concat fmap list_fmap sum_Z]. by rewrite sum_Z_app, IH.
Qed.

(** Wrapping before or after an addition comes to the same. *)
Lemma wrap_int64_add_l (a b : Z) :
  wrap_int64 (wrap_int64 a + b) = wrap_int64 (a + b).
Proof.
  unfold wrap_int64. f_equal.
  replace ((a + 2 ^ 63) `mod` 2 ^ 64 - 2 ^ 63 + b + 2 ^ 63)%Z
    with ((a + 2 ^ 63) `mod` 2 ^ 64 + b)%Z by lia.
  rewrite Z.add_mod_idemp_l by lia. f_equal. lia.
Qed.

Lemma wrap_int64_sum_wrapped (l : list Z) :
  wrap_int64 (sum_Z (wrap_int64 <$> l)) = wrap_int64 (sum_Z l).
Proof.
  induction l as [|x l IH]; [done|]. cbn [fmap list_fmap sum_Z].
  rewrite wrap_int64_add_l, (Z.add_comm x), <- wrap_int64_add_l, IH.
  by rewrite wrap_int64_add_l, Z.add_comm.
Qed.

(** X10.  Quantity is an int64 column and every line has a region: the
    Quantity column of the regional table, summed as int64, gives the
    total-quantity KPI, wrap-around included. *)
Theorem region_quantity_adds_up (df : DataFrame) :
  wrap_int64 (sum_Z (region_Quantity (region_performance df)))
  = total_quantity df.
Proof.
  set (key := λ ir : label * Row (option Timestamp), Some (Region ir.2)).
  assert (region_Quantity (region_performance df)
          = wrap_int64 <$> (sum_Z <$> ((λ g : DataFrame, column Quantity g)
              <$> ((λ k, filter (λ ir, key ir = Some k) df)
                     <$> group_keys (omap key df))))) as ->.
  { unfold region_Quantity, region_performance, groupby.
    by rewrite <- !list_fmap_compose. }
  rewrite wrap_int64_sum_wrapped, <- sum_Z_concat. unfold total_quantity.
  f_equal. unfold column. rewrite <- fmap_concat.
  rewrite (groups_partition key df).
  by rewrite filter_all by (intros; cbn; eauto).
Qed.

Example region_quantity_two_line_order :
  region_Quantity (region_performance two_line_order) = [3; 5]%Z
  ∧ total_quantity two_line_order = 8%Z.
Proof. by vm_compute. Qed.

(** X11.  When every line has an order date, as after preprocessing, the
    monthly series lists each month label once, with the sum of the Sales of
    the lines of that label, and every line falls in the group of exactly
    one listed label: grouping on the formatted label loses no line and
    counts none twice. *)
Theorem linechart_partition (df : DataFrame) :
  Forall (λ ir, is_Some (Order_Date ir.2)) df →
  NoDup (linechart df).*1
  ∧ Forall (λ ir, ∃ l, month_label ir.2 = Some l ∧ l ∈ (linechart df).*1) df
  ∧ Forall (λ kv, kv.2 = sum_Qc (column Sales
                                   (filter (λ ir, month_label ir.2 = Some kv.1) df)))
           (linechart df)
  ∧ concat ((λ l, filter (λ ir, month_label ir.2 = Some l) df)
              <$> (linechart df).*1)
    ≡ₚ df.
Proof.
  intros Hdates. unfold linechart. rewrite groupby_sum_keys.
  change (λ r, strftime_Y_b <$> month_year r) with month_label.
  assert (∀ ir, ir ∈ df → is_Some (month_label ir.2)) as Hlab.
  { intros ir Hin. rewrite Forall_forall in Hdates.
    destruct (Hdates ir Hin) as [d Hd].
    unfold month_label, month_year. rewrite Hd. cbn. eauto. }
  split_and!.
  - apply NoDup_group_keys.
  - apply Forall_forall. intros ir Hin. destruct (Hlab ir Hin) as [l Hl].
    exists l. split; [done|].
    rewrite elem_of_group_keys, list_elem_of_omap. by exists ir.
  - apply groupby_sum_values.
  - rewrite (groups_partition (λ ir : label * Row _, month_label ir.2) df).
    by rewrite filter_fixed by done.
Qed.

Lemma linechart_partition_witness :
  NoDup (linechart sample_df).*1
  ∧ Forall (λ ir, ∃ l, month_label ir.2 = Some l ∧ l ∈ (linechart sample_df).*1)
           sample_df
  ∧ Forall (λ kv, kv.2 = sum_Qc (column Sales
                                   (filter (λ ir, month_label ir.2 = Some kv.1)
                                           sample_df)))
           (linechart sample_df)
  ∧ concat ((λ l, filter (λ ir, month_label ir.2 = Some l) sample_df)
              <$> (linechart sample_df).*1)
    ≡ₚ sample_df.
Proof. apply linechart_partition. repeat constructor; by eexists. Defined.

(** ** Rankings *)

#[global] Instance Sales_ge_trans : Transitive Sales_ge.
Proof. intros a b c Hab Hbc. unfold Sales_ge in *. by etrans. Qed.

Lemma elem_of_groupby_sum {D} (key : Row D → option string) (val : Row D → Qc)
    (df : Frame D) k v :
  (k, v) ∈ groupby_sum key val df ↔
  k ∈ omap (λ ir, key ir.2) df ∧ v = group_sum key val df k.
Proof.
  unfold groupby_sum, groupby. rewrite list_elem_of_fmap.
  setoid_rewrite elem_of_group_keys. split.
  - by intros (k' & [= -> ->] & Hin).
  - intros [Hin ->]. by exists k.
Qed.

Section Ranking.
Context {D : Type} (f : Row D → string) (val : Row D → Qc).
Implicit Types df : Frame D.

Lemma length_ranking df :
  length (take 10 (sort_values_desc (groupby_sum (λ r, Some (f r)) val df)))
  = min 10 (length (remove_dups (column f df))).
Proof.
  rewrite length_take, sort_values_desc_Permutation.
  unfold groupby_sum. rewrite <- (length_fmap fst), groupby_keys.
  by rewrite length_group_keys, omap_Some_column.
Qed.

Lemma ranking_keys_NoDup df :
  NoDup (take 10 (sort_values_desc (groupby_sum (λ r, Some (f r)) val df))).*1.
Proof.
  apply (sublist_NoDup
           _ (sort_values_desc (groupby_sum (λ r, Some (f r)) val df)).*1).
  - rewrite sort_values_desc_Permutation. unfold groupby_sum.
    rewrite groupby_keys. apply NoDup_group_keys.
  - apply fmap_sublist, sublist_take.
Qed.

Lemma ranking_entries df k v :
  (k, v) ∈ take 10 (sort_values_desc (groupby_sum (λ r, Some (f r)) val df)) →
  k ∈ column f df ∧ v = group_sum (λ r, Some (f r)) val df k.
Proof.
  intros Hin. apply (subseteq_take 10) in Hin.
  rewrite sort_values_desc_Permutation in Hin.
  apply elem_of_groupby_sum in Hin. by rewrite omap_Some_column in Hin.
Qed.

Lemma ranking_complete df k :
  k ∈ column f df →
  k ∈ (take 10 (sort_values_desc (groupby_sum (λ r, Some (f r)) val df))).*1
  ∨ ∀ kv,
      kv ∈ take 10 (sort_values_desc (groupby_sum (λ r, Some (f r)) val df)) →
      (group_sum (λ r, Some (f r)) val df k ≤ kv.2)%Qc.
Proof.
  intros Hk.
  set (sorted := sort_values_desc (groupby_sum (λ r, Some (f r)) val df)).
  assert ((k, group_sum (λ r, Some (f r)) val df k) ∈ sorted) as Hin.
  { unfold sorted. rewrite sort_values_desc_Permutation.
    apply elem_of_groupby_sum. by rewrite omap_Some_column. }
  pose proof (Sorted_StronglySorted _ _ (sort_values_desc_Sorted
                (groupby_sum (λ r, Some (f r)) val df))) as Hs.
  fold sorted in Hs. rewrite <- (take_drop 10 sorted) in Hin, Hs.
  apply elem_of_app in Hin as [Hin|Hin].
  - left. apply (list_elem_of_fmap_2 fst _ _ Hin).
  - right. intros kv Hkv.
    apply (StronglySorted_app_1_elem_of _ _ _ _ _ Hs Hkv Hin).
Qed.
End Ranking.

(** X12.  The top-10 table lists each city at most once, each with the sum
    of its sales, and leaves out no city that sold more than a listed one:
    a city of the table is either listed or has a total no larger than every
    listed total. *)
Theorem top_cities_complete (df : DataFrame) :
  NoDup (top_cities df).*1
  ∧ Forall (λ kv, kv.1 ∈ column City df
                  ∧ kv.2 = group_sum (λ r, Some (City r)) Sales df kv.1)
           (top_cities df)
  ∧ Forall (λ c, c ∈ (top_cities df).*1
                 ∨ Forall (λ kv, (group_sum (λ r, Some (City r)) Sales df c
                                  ≤ kv.2)%Qc) (top_cities df))
           (column City df).
Proof.
  split_and!.
  - apply ranking_keys_NoDup.
  - apply Forall_forall. intros [k v] Hin. by apply ranking_entries.
  - apply Forall_forall. intros c Hc.
    destruct (ranking_complete City Sales df c Hc) as [?|Hle]; [by left|].
    right. by apply Forall_forall.
Qed.

(** X13.  The product ranking is absent when the table has no Product Name
    column.  Otherwise it has min(10, number of distinct products) rows, in
    descending order of summed profit, each product once with the sum of its
    profit. *)
Theorem top_products_ranking (columns : list string) (df : DataFrame) :
  match top_products columns df with
  | None => "Product Name" ∉ columns
  | Some t =>
      "Product Name" ∈ columns
      ∧ length t = min 10 (length (remove_dups (column Product_Name df)))
      ∧ Sorted Sales_ge t
      ∧ NoDup t.*1
      ∧ Forall (λ kv, kv.1 ∈ column Product_Name df
                      ∧ kv.2 = group_sum (λ r, Some (Product_Name r)) Profit
                                 df kv.1) t
  end.
Proof.
  unfold top_products. case_bool_decide; [|done]. split_and!.
  - done.
  - apply length_ranking.
  - apply Sorted_take, sort_values_desc_Sorted.
  - apply ranking_keys_NoDup.
  - apply Forall_forall. intros [k v] Hin. by apply ranking_entries.
Qed.

(** ** Margin by category *)


Example category_profit_zero_sales :
  (λ row, (row.1, row.2.2)) <$> category_profit
    [ (0, mkRow (Some feb10) "East" "New York" "Boston" "Furniture" "Chairs"
             "Consumer" 0%Qc (Qc_of_Z 5) 1 "CA-1" (Some "CG-1") "Chair") ]
  = [("Furniture", None)].
Proof. reflexivity. Qed.

(** ** The pivot has no empty row or column *)

Lemma mean_is_Some (l : list Qc) : l ≠ [] → is_Some (mean l).
Proof. destruct l; [done|]. cbn. eauto. Qed.

(** X15.  Every row of the pivot has the same month columns, every listed
    sub-category has a number in at least one of them, and every listed
    month has a number in at least one row. *)
Theorem pivot_no_empty_row_or_column (df : DataFrame) :
  Forall (λ row, row.2.*1 = group_keys (omap (λ ir, month_col ir.2) df)
                 ∧ ∃ m v, (m, Some v) ∈ row.2)
         (sub_category_year df)
  ∧ Forall (λ m, ∃ s v, pivot_cell (sub_category_year df) s m = Some v)
           (group_keys (omap (λ ir, month_col ir.2) df)).
Proof.
  assert (∀ i r m, (i, r) ∈ df → month_col r = Some m →
                   is_Some (pivot_cell_of df (Sub_Category r) m)) as Hcell.
  { intros i r m Hr Hm. apply mean_is_Some. intros Heq.
    assert ((i, r) ∈ filter (λ ir, Sub_Category ir.2 = Sub_Category r
                                   ∧ month_col ir.2 = Some m) df) as Hin.
    { by apply list_elem_of_filter. }
    apply (list_elem_of_fmap_2 (λ ir, Sales ir.2)) in Hin.
    unfold column in Heq. rewrite Heq in Hin. by apply elem_of_nil in Hin. }
  split.
  - apply Forall_forall. intros [s cells] Hin. unfold sub_category_year in Hin.
    apply list_elem_of_fmap in Hin as (s' & [= -> ->] & Hs). cbn [snd].
    split; [by rewrite <- list_fmap_compose, list_fmap_id|].
    apply elem_of_group_keys, list_elem_of_fmap in Hs as ([i r] & -> & Hr).
    apply list_elem_of_filter in Hr as [[m Hm] Hr]. cbn [snd] in *.
    destruct (Hcell i r m Hr Hm) as [v Hv].
    exists m, v. apply list_elem_of_fmap. exists m. split.
    + by rewrite Hv.
    + apply elem_of_group_keys, list_elem_of_omap. by exists (i, r).
  - apply Forall_forall. intros m Hm.
    apply elem_of_group_keys, list_elem_of_omap in Hm as ([i r] & Hr & Hm).
    cbn [snd] in Hm. exists (Sub_Category r).
    rewrite pivot_cell_spec. by apply (Hcell i r m).
Qed.

(** ** Counts and totals under filtering *)






Example unique_customers_two_line_order :
  unique_customers ["Customer ID"] two_line_order = 1
  ∧ unique_customers ["Customer ID"] (drop 2 two_line_order) = 0
  ∧ unique_customers [] two_line_order = 3.
Proof. by vm_compute. Qed.




(** ** The monthly series across years *)

Lemma String_compare_trans a b c :
  String.compare a b = Lt → String.compare b c = Lt → String.compare a c = Lt.
Proof.
  intros Hab%OrderedTypeEx.String_as_OT.cmp_lt Hbc%OrderedTypeEx.String_as_OT.cmp_lt.
  apply OrderedTypeEx.String_as_OT.cmp_lt.
  by eapply OrderedTypeEx.String_as_OT.lt_trans.
Qed.

Lemma String_leb_trans a b c :
  String.leb a b = true → String.leb b c = true → String.leb a c = true.
Proof.
  intros Hab Hbc. unfold String.leb in *.
  destruct (String.compare a b) eqn:Eab; [| |done].
  - by apply String.compare_eq_iff in Eab as ->.
  - destruct (String.compare b c) eqn:Ebc; [| |done].
    + apply String.compare_eq_iff in Ebc as <-. by rewrite Eab.
    + by rewrite (String_compare_trans a b c).
Qed.

#[global] Instance String_leb_Transitive :
  Transitive (λ a b, String.leb a b = true).
Proof. intros a b c. apply String_leb_trans. Qed.

Lemma StronglySorted_lookup_lt {A} (R : relation A) l i j x y :
  StronglySorted R l → i < j → l !! i = Some x → l !! j = Some y → R x y.
Proof.
  intros Hs. revert i j. induction Hs as [|z l Hs IH Hall]; intros i j Hij Hi Hj.
  - done.
  - destruct j as [|j]; [lia|]. destruct i as [|i]; cbn in Hi, Hj.
    + injection Hi as ->. rewrite Forall_forall in Hall.
      apply Hall. by eapply list_elem_of_lookup_2.
    + apply (IH i j); [lia|done|done].
Qed.

(** Comparing two strings that start with prefixes of one length: a
    difference in the prefixes decides. *)
Lemma String_compare_prefix a b s t :
  String.length a = String.length b → String.compare a b = Lt →
  String.compare (a +:+ s) (b +:+ t) = Lt.
Proof.
  revert b. induction a as [|c a IH]; intros [|d b] Hlen Hcmp; try done.
  change (String.compare (String c (a +:+ s)) (String d (b +:+ t)) = Lt).
  cbn in *. destruct (Ascii.compare c d); [|done|done].
  apply IH; [lia|done].
Qed.

(** The years from 1000 to 9999 print with four digits, in the order of the
    numbers: checked year by year, then chained. *)
Lemma four_digit_years_step :
  forallb (λ k, year_prints_before_next (1000 + N.of_nat k)%N)
          (seq 0 (N.to_nat 8999)) = true.
Proof. by vm_compute. Qed.

Lemma four_digit_years_ordered (y1 y2 : N) :
  (1000 ≤ y1)%N → (y1 < y2)%N → (y2 ≤ 9999)%N →
  String.length (pretty y1) = String.length (pretty y2)
  ∧ String.compare (pretty y1) (pretty y2) = Lt.
Proof.
  intros Hlo Hlt Hhi.
  assert (∀ y, (1000 ≤ y < 9999)%N →
               String.compare (pretty y) (pretty (y + 1)%N) = Lt
               ∧ String.length (pretty y) = 4
               ∧ String.length (pretty (y + 1)%N) = 4) as Hstep.
  { intros y Hy. pose proof four_digit_years_step as Hall.
    rewrite forallb_forall in Hall.
    specialize (Hall (N.to_nat (y - 1000)) ltac:(apply in_seq; lia)).
    replace (1000 + N.of_nat (N.to_nat (y - 1000)))%N with y in Hall by lia.
    unfold year_prints_before_next in Hall.
    destruct (String.compare _ _); [done| |done].
    apply andb_true_iff in Hall as [H1%Nat.eqb_eq H2%Nat.eqb_eq]. done. }
  assert (∀ (d : nat) y, (1000 ≤ y)%N → (y + N.of_nat (S d) ≤ 9999)%N →
                 String.length (pretty y)
                 = String.length (pretty (y + N.of_nat (S d))%N)
                 ∧ String.compare (pretty y)
                                  (pretty (y + N.of_nat (S d))%N) = Lt) as Hchain.
  { induction d as [|d IH]; intros y Hy Hd.
    - replace (y + N.of_nat 1)%N with (y + 1)%N by lia.
      destruct (Hstep y ltac:(lia)) as (? & -> & ->). done.
    - destruct (IH y Hy ltac:(lia)) as [Hlen Hcmp].
      destruct (Hstep (y + N.of_nat (S d))%N ltac:(lia)) as (Hnext & Hl1 & Hl2).
      replace (y + N.of_nat (S (S d)))%N with (y + N.of_nat (S d) + 1)%N by lia.
      split; [congruence|]. by eapply String_compare_trans. }
  destruct (Hchain (N.to_nat (y2 - y1 - 1)) y1 ltac:(lia) ltac:(lia))
    as [Hlen Hcmp].
  by replace (y1 + N.of_nat (S (N.to_nat (y2 - y1 - 1))))%N with y2 in * by lia.
Qed.

Lemma label_year_order (y1 y2 : N) (m1 m2 : Month) :
  (1000 ≤ y1)%N → (y1 < y2)%N → (y2 ≤ 9999)%N →
  String.compare (strftime_Y_b (y1, m1)) (strftime_Y_b (y2, m2)) = Lt.
Proof.
  intros Hlo Hlt Hhi. unfold strftime_Y_b. cbn [fst snd].
  destruct (four_digit_years_ordered y1 y2 Hlo Hlt Hhi) as [Hlen Hcmp].
  by apply String_compare_prefix.
Qed.

(** X18.  In the monthly series a row of an earlier year stands before every
    row of a later year (years of four digits): the labels begin with the
    year, so their order follows the years even though, within one year, it
    follows the spelling of the month. *)
Theorem linechart_years_in_order (df : DataFrame) (i j : nat)
    (y1 y2 : N) (m1 m2 : Month) :
  (1000 ≤ y1)%N → (y1 < y2)%N → (y2 ≤ 9999)%N →
  (linechart df).*1 !! i = Some (strftime_Y_b (y1, m1)) →
  (linechart df).*1 !! j = Some (strftime_Y_b (y2, m2)) →
  i < j.
Proof.
  intros Hlo Hlt Hhi Hi Hj.
  pose proof (label_year_order y1 y2 m1 m2 Hlo Hlt Hhi) as Hcmp.
  pose proof (Sorted_StronglySorted _ _ (linechart_keys_by_label df)) as Hs.
  destruct (Nat.lt_trichotomy i j) as [?|[->|Hji]]; [done| |].
  - rewrite Hi in Hj. injection Hj as Heq. rewrite Heq in Hcmp.
    assert (String.compare (strftime_Y_b (y2, m2)) (strftime_Y_b (y2, m2)) = Eq)
      as Hrefl by (by apply OrderedTypeEx.String_as_OT.cmp_eq).
    congruence.
  - pose proof (StronglySorted_lookup_lt _ _ _ _ _ _ Hs Hji Hj Hi) as Hle.
    cbn in Hle. unfold String.leb in Hle.
    rewrite String.compare_antisym, Hcmp in Hle. done.
Qed.

Lemma linechart_years_in_order_witness :
  (linechart sample_df).*1 !! 1 = Some (strftime_Y_b (2023%N, Dec))
  ∧ (linechart sample_df).*1 !! 3 = Some (strftime_Y_b (2024%N, Jan))
  ∧ 1 < 3.
Proof.
  assert ((linechart sample_df).*1 !! 1 = Some (strftime_Y_b (2023%N, Dec))) as H1
    by (by vm_compute).
  assert ((linechart sample_df).*1 !! 3 = Some (strftime_Y_b (2024%N, Jan))) as H3
    by (by vm_compute).
  split_and!; [done|done|].
  apply (linechart_years_in_order sample_df 1 3 2023 2024 Dec Jan); [lia..|done|done].
Defined.
